(** * Weather chatbot (src/main.py): a shallow embedding and its properties

    The program is a linear pipeline driven by an interactive loop:
    user text -> [process_user_query] -> [geocode_location] ->
    [get_weather_data] -> [generate_response] -> printed line.

    Python values that come out of JSON documents are modelled by the
    inductive type [json]; Python exceptions by the type [exn] and the error
    monad [result]; the dictionary [PICTOCODE_MEANINGS] and [os.environ] by
    stdpp's [gmap].  Everything outside the program (the text-generation
    service, the two HTTP services, the clock and the library functions
    [json.loads], [str] and [repr]) is collected in the record [World]. *)

From Stdlib Require Import ZArith List Ascii String Floats.SpecFloat.
From Stdlib Require Import Numbers.DecimalString Init.Decimal.
From stdpp Require Import base gmap strings list.

Open Scope string_scope.
Open Scope Z_scope.

Set Warnings "-register-all".

(** ** Strings *)

(** Python strings are sequences of code points; the model uses Rocq's
    [string], that is code points below 256. *)

Definition chr (n : nat) : string := String (ascii_of_nat n) EmptyString.
Definition nl : string := chr 10.
Definition dquote : string := chr 34.

(** [str(n)] of a Python integer. *)
Definition str_of_Z (z : Z) : string := NilZero.string_of_int (Z.to_int z).

(** ** JSON values as Python objects *)

(** What [json.loads] and [response.json()] produce: [None], [bool], [int],
    [float] (IEEE 754 binary64, as [spec_float]), [str], [list] and [dict]
    with string keys (in insertion order). *)
Inductive json : Type :=
  | JNull
  | JBool (b : bool)
  | JInt (z : Z)
  | JFloat (f : spec_float)
  | JStr (s : string)
  | JArr (l : list json)
  | JObj (fields : list (string * json)).

(** Python's truth value testing, as [if x:] and [x and y] apply it. *)
Definition truthy (v : json) : bool :=
  match v with
  | JNull => false
  | JBool b => b
  | JInt z => negb (z =? 0)
  | JFloat (S754_zero _) => false
  | JFloat _ => true
  | JStr s => negb (String.eqb s "")
  | JArr l => match l with [] => false | _ => true end
  | JObj fs => match fs with [] => false | _ => true end
  end.

(** [type(v).__name__]. *)
Definition type_name (v : json) : string :=
  match v with
  | JNull => "NoneType"
  | JBool _ => "bool"
  | JInt _ => "int"
  | JFloat _ => "float"
  | JStr _ => "str"
  | JArr _ => "list"
  | JObj _ => "dict"
  end.

(** ** Exceptions *)

(** The exceptions the program can meet, all subclasses of [Exception].
    [KeyError] keeps the missing key and [StrptimeMismatch] the string that
    did not match the format (a [ValueError] of [_strptime]); the others keep
    their message.  [ServiceError] stands for any exception raised inside
    [requests], [json] or the text-generation client, and [EOFError] is what
    [input] raises when standard input has ended. *)
Inductive exn : Type :=
  | KeyError (key : json)
  | IndexError (msg : string)
  | TypeError (msg : string)
  | ValueError (msg : string)
  | StrptimeMismatch (data : string)
  | ServiceError (msg : string)
  | EOFError (msg : string).

(** [str(e)], given Python's [repr]. *)
Definition exn_str (repr : json -> string) (e : exn) : string :=
  match e with
  | KeyError k => repr k
  | StrptimeMismatch d =>
      "time data " +:+ repr (JStr d) +:+ " does not match format '%Y-%m-%d'"
  | IndexError m | TypeError m | ValueError m | ServiceError m | EOFError m => m
  end.

Inductive result (A : Type) : Type :=
  | Return (a : A)
  | Raise (e : exn).
Arguments Return {A} a.
Arguments Raise {A} e.

(** [result] is an error monad; stdpp's notation [x ← c; k] sequences two
    statements and lets an exception of the first skip the second. *)
#[export] Instance result_ret : MRet result := fun _ a => Return a.
#[export] Instance result_bind : MBind result := fun _ _ k r =>
  match r with
  | Return a => k a
  | Raise e => Raise e
  end.

#[export] Instance result_fmap : FMap result := fun _ _ f r =>
  match r with
  | Return a => Return (f a)
  | Raise e => Raise e
  end.

(** ** Condition lookup *)

(** The table of lines 13-49, in source order. *)
Definition pictocode_table : list (Z * string) :=
  [ (1, "Clear, cloudless sky");
    (2, "Clear, few cirrus");
    (3, "Clear with cirrus");
    (4, "Clear with few low clouds");
    (5, "Clear with few low clouds and few cirrus");
    (6, "Clear with few low clouds and cirrus");
    (7, "Partly cloudy");
    (8, "Partly cloudy and few cirrus");
    (9, "Partly cloudy and cirrus");
    (10, "Mixed with some thunderstorm clouds possible");
    (11, "Mixed with few cirrus with some thunderstorm clouds possible");
    (12, "Mixed with cirrus and some thunderstorm clouds possible");
    (13, "Clear but hazy");
    (14, "Clear but hazy with few cirrus");
    (15, "Clear but hazy with cirrus");
    (16, "Fog/low stratus clouds");
    (17, "Fog/low stratus clouds with few cirrus");
    (18, "Fog/low stratus clouds with cirrus");
    (19, "Mostly cloudy");
    (20, "Mostly cloudy and few cirrus");
    (21, "Mostly cloudy and cirrus");
    (22, "Overcast");
    (23, "Overcast with rain");
    (24, "Overcast with snow");
    (25, "Overcast with heavy rain");
    (26, "Overcast with heavy snow");
    (27, "Rain, thunderstorms likely");
    (28, "Light rain, thunderstorms likely");
    (29, "Storm with heavy snow");
    (30, "Heavy rain, thunderstorms likely");
    (31, "Mixed with showers");
    (32, "Mixed with snow showers");
    (33, "Overcast with light rain");
    (34, "Overcast with light snow");
    (35, "Overcast with mixture of snow and rain") ].

Definition PICTOCODE_MEANINGS : gmap Z string := list_to_map pictocode_table.

Definition unknown_condition : string := "Unknown weather condition".

(** [PICTOCODE_MEANINGS.get(code, "Unknown weather condition")] on an
    integer code (lines 118-120). *)
Definition describe (code : Z) : string :=
  default unknown_condition (PICTOCODE_MEANINGS !! code).

(** ** Subscripts and iteration on Python objects *)

(** Binding of a key in a [dict]; the first binding of a key is the one that
    counts. *)
Fixpoint assoc (k : string) (fs : list (string * json)) : option json :=
  match fs with
  | [] => None
  | (k', v) :: fs' => if String.eqb k k' then Some v else assoc k fs'
  end.

(** [d[k] = v] on a [dict]: an existing key keeps its place. *)
Fixpoint assoc_set (k : string) (v : json) (fs : list (string * json))
  : list (string * json) :=
  match fs with
  | [] => [(k, v)]
  | (k', v') :: fs' =>
      if String.eqb k k' then (k, v) :: fs' else (k', v') :: assoc_set k v fs'
  end.

(** The characters of a string, each as a string of length one. *)
Fixpoint chars (s : string) : list string :=
  match s with
  | EmptyString => []
  | String c s' => String c EmptyString :: chars s'
  end.

(** [seq[i]] for an integer index: a negative index counts from the end. *)
Definition index_seq {A : Type} (what : string) (l : list A) (i : Z) : result A :=
  let n := Z.of_nat (length l) in
  let j := if i <? 0 then i + n else i in
  if (0 <=? j) && (j <? n) then
    match l !! Z.to_nat j with
    | Some a => Return a
    | None => Raise (IndexError (what +:+ " index out of range"))
    end
  else Raise (IndexError (what +:+ " index out of range")).

(** The integer a value stands for when it is used as an index ([bool] is a
    subclass of [int]). *)
Definition as_index (k : json) : option Z :=
  match k with
  | JInt i => Some i
  | JBool b => Some (if b then 1 else 0)
  | _ => None
  end.

(** [v[k]] (the wording of the [TypeError]s is CPython 3.12's). *)
Definition getitem (v k : json) : result json :=
  match v with
  | JObj fs =>
      match k with
      | JStr s => match assoc s fs with
                  | Some x => Return x
                  | None => Raise (KeyError k)
                  end
      | JArr _ | JObj _ =>
          Raise (TypeError ("unhashable type: '" +:+ type_name k +:+ "'"))
      | _ => Raise (KeyError k)
      end
  | JArr l =>
      match as_index k with
      | Some i => index_seq "list" l i
      | None => Raise (TypeError ("list indices must be integers or slices, not "
                                    +:+ type_name k))
      end
  | JStr s =>
      match as_index k with
      | Some i => JStr <$> index_seq "string" (chars s) i
      | None => Raise (TypeError ("string indices must be integers, not '"
                                    +:+ type_name k +:+ "'"))
      end
  | _ => Raise (TypeError ("'" +:+ type_name v +:+ "' object is not subscriptable"))
  end.


(** [for key in v]: the keys of a [dict], the items of a [list], the
    characters of a [str]. *)
Definition iter (v : json) : result (list json) :=
  match v with
  | JObj fs => Return (JStr <$> (fst <$> fs))
  | JArr l => Return l
  | JStr s => Return (JStr <$> chars s)
  | _ => Raise (TypeError ("'" +:+ type_name v +:+ "' object is not iterable"))
  end.

(** [[f(x) for x in l]], stopping at the first exception. *)
Fixpoint for_each {A B : Type} (f : A -> result B) (l : list A) : result (list B) :=
  match l with
  | [] => Return []
  | x :: l' => y ← f x; ys ← for_each f l'; Return (y :: ys)
  end.

(** ** Calendar dates *)

(** [datetime.date]: the proleptic Gregorian calendar, years 1 to 9999. *)
Record Date : Type := mkdate { year : Z; month : Z; day : Z }.

Definition is_leap (y : Z) : bool :=
  (y mod 4 =? 0) && (negb (y mod 100 =? 0) || (y mod 400 =? 0)).

Definition days_in_month (y m : Z) : Z :=
  if m =? 2 then (if is_leap y then 29 else 28)
  else if (m =? 4) || (m =? 6) || (m =? 9) || (m =? 11) then 30
  else 31.

(** Days of the year [y] before the first day of month [m]. *)
Definition days_before_month (y m : Z) : Z :=
  fold_right Z.add 0 (map (days_in_month y) (map Z.of_nat (seq 1 (Z.to_nat (m - 1))))).

(** Days before January 1st of year [y]. *)
Definition days_before_year (y : Z) : Z :=
  let p := y - 1 in p * 365 + p / 4 - p / 100 + p / 400.

(** [d.toordinal()]: January 1st of year 1 is day 1. *)
Definition toordinal (d : Date) : Z :=
  days_before_year (year d) + days_before_month (year d) (month d) + day d.

(** [(a - b).days] for two dates. *)
Definition days_between (a b : Date) : Z := toordinal a - toordinal b.

(** The dates the constructor [date(y, m, d)] accepts. *)
Definition valid_date (d : Date) : bool :=
  (1 <=? year d) && (year d <=? 9999) &&
  (1 <=? month d) && (month d <=? 12) &&
  (1 <=? day d) && (day d <=? days_in_month (year d) (month d)).

(** *** Reading and writing the format [%Y-%m-%d] *)

Definition is_digit (c : ascii) : bool :=
  let n := nat_of_ascii c in (48 <=? n)%nat && (n <=? 57)%nat.

Definition digit (c : ascii) : Z := Z.of_nat (nat_of_ascii c) - 48.

Definition in_range (c : ascii) (lo hi : Z) : bool :=
  is_digit c && (lo <=? digit c) && (digit c <=? hi).

(** The group [(?P<m>1[0-2]|0[1-9]|[1-9])] followed by the literal [-]: the
    alternatives are tried in order, and one is kept only if the dash
    follows it. *)
Definition match_month (s : string) : option (Z * string) :=
  match s with
  | String a (String b (String c r)) =>
      if Ascii.eqb a "1" && in_range b 0 2 && Ascii.eqb c "-" then Some (10 + digit b, r)
      else if Ascii.eqb a "0" && in_range b 1 9 && Ascii.eqb c "-" then Some (digit b, r)
      else if in_range a 1 9 && Ascii.eqb b "-" then Some (digit a, String c r)
      else None
  | String a (String b r) =>
      if in_range a 1 9 && Ascii.eqb b "-" then Some (digit a, r) else None
  | _ => None
  end.

(** The group [(?P<d>3[0-1]|[1-2]\d|0[1-9]|[1-9]| [1-9])], the last of the
    pattern: the first alternative that matches is kept, with what is left
    of the string. *)
Definition match_day (s : string) : option (Z * string) :=
  match s with
  | String a (String b r) =>
      if Ascii.eqb a "3" && in_range b 0 1 then Some (30 + digit b, r)
      else if in_range a 1 2 && is_digit b then Some (10 * digit a + digit b, r)
      else if Ascii.eqb a "0" && in_range b 1 9 then Some (digit b, r)
      else if in_range a 1 9 then Some (digit a, String b r)
      else if Ascii.eqb a " " && in_range b 1 9 then Some (digit b, r)
      else None
  | String a EmptyString =>
      if in_range a 1 9 then Some (digit a, EmptyString) else None
  | _ => None
  end.

(** The group [(?P<Y>\d\d\d\d)] followed by the literal [-]. *)
Definition match_year (s : string) : option (Z * string) :=
  match s with
  | String a (String b (String c (String d (String e r)))) =>
      if is_digit a && is_digit b && is_digit c && is_digit d && Ascii.eqb e "-"
      then Some (1000 * digit a + 100 * digit b + 10 * digit c + digit d, r)
      else None
  | _ => None
  end.

(** [datetime.strptime(s, "%Y-%m-%d").date()] on a string: the pattern must
    match a prefix of [s], nothing may remain after it, and the three
    numbers must make a date. *)
Definition strptime_str (s : string) : result Date :=
  match match_year s with
  | None => Raise (StrptimeMismatch s)
  | Some (y, s1) =>
      match match_month s1 with
      | None => Raise (StrptimeMismatch s)
      | Some (m, s2) =>
          match match_day s2 with
          | None => Raise (StrptimeMismatch s)
          | Some (d, rest) =>
              if negb (String.eqb rest "") then
                Raise (ValueError ("unconverted data remains: " +:+ rest))
              else if y =? 0 then Raise (ValueError "year 0 is out of range")
              else if days_in_month y m <? d then
                Raise (ValueError "day is out of range for month")
              else Return (mkdate y m d)
          end
      end
  end.

(** [datetime.strptime(v, "%Y-%m-%d").date()] on any object; the message
    for an argument that is no string names its type, and [None] by its
    name. *)
Definition strptime (v : json) : result Date :=
  match v with
  | JStr s => strptime_str s
  | JNull => Raise (TypeError "strptime() argument 1 must be str, not None")
  | _ => Raise (TypeError ("strptime() argument 1 must be str, not " +:+ type_name v))
  end.

Fixpoint zeros (n : nat) : string :=
  match n with
  | O => ""
  | S n' => "0" +:+ zeros n'
  end.

(** A non-negative number on at least [n] digits, padded with zeros. *)
Definition pad (n : nat) (s : string) : string := zeros (n - String.length s) +:+ s.

(** [d.strftime("%Y-%m-%d")]: the month and the day on two digits, and the
    year as the C library writes it, without padding (four digits from the
    year 1000 on, 999 for the year 999). *)
Definition strftime (d : Date) : string :=
  str_of_Z (year d) +:+ "-" +:+ pad 2 (str_of_Z (month d)) +:+ "-"
    +:+ pad 2 (str_of_Z (day d)).

(** ** The world outside the program *)

(** What one turn of the loop can observe of its environment.
    - [generate_content p] is [model.generate_content(p).text];
    - [requests_get_json u] is [requests.get(u).json()];
    - [json_loads], [py_str] and [py_repr] are the library functions
      [json.loads], [str] (as an f-string applies it) and [repr];
    - [now_query] and [now_forecast] are the readings [datetime.now().date()]
      of lines 113 and 70. *)
Record World : Type := mkWorld {
  generate_content : string -> result string;
  json_loads : string -> result json;
  requests_get_json : string -> result json;
  now_query : Date;
  now_forecast : Date;
  py_str : json -> string;
  py_repr : json -> string
}.

(** [os.environ]. *)
Abbreviation environ := (gmap string string).

(** [os.environ[name]]. *)
Definition getenv (env : environ) (name : string) : result string :=
  match env !! name with
  | Some v => Return v
  | None => Raise (KeyError (JStr name))
  end.

(** ** Geocoder adapter (lines 52-60) *)

Definition geocode_url (w : World) (location : json) (key : string) : string :=
  "https://api.opencagedata.com/geocode/v1/json?q=" +:+ py_str w location
    +:+ "&key=" +:+ key.

Definition geocode_location (env : environ) (w : World) (location : json)
  : result (json * json) :=
  key ← getenv env "OPENCAGE_API_KEY";
  data ← requests_get_json w (geocode_url w location key);
  results ← getitem data (JStr "results");
  if truthy results then
    first ← getitem results (JInt 0);
    geometry ← getitem first (JStr "geometry");
    lat ← getitem geometry (JStr "lat");
    lon ← getitem geometry (JStr "lng");
    Return (lat, lon)
  else Return (JNull, JNull).

(** ** Forecast adapter (lines 63-93) *)

(** The dictionary the forecast adapter returns. *)
Record DayForecast : Type := mkDayForecast {
  df_date : json;
  temperature_max : json;
  temperature_min : json;
  temperature_mean : json;
  felttemperature_max : json;
  felttemperature_min : json;
  precipitation : json;
  precipitation_probability : json;
  windspeed_mean : json;
  winddirection : json;
  pictocode : json;
  uvindex : json;
  relativehumidity_mean : json
}.

Definition weather_url (w : World) (lat lon : json) (key : string) : string :=
  "https://my.meteoblue.com/packages/basic-day?apikey=" +:+ key +:+ "&lat="
    +:+ py_str w lat +:+ "&lon=" +:+ py_str w lon +:+ "&format=json".

(** [day_data[k]] in the dictionary built by the comprehension of lines
    74-76, whose keys are whatever the iteration produced. *)
Fixpoint day_get (k : string) (day_data : list (json * json)) : result json :=
  match day_data with
  | [] => Raise (KeyError (JStr k))
  | (JStr k', v) :: rest => if String.eqb k k' then Return v else day_get k rest
  | _ :: rest => day_get k rest
  end.

(** The comprehension
    [{key: data["data_day"][key][days_difference] for key in data["data_day"]}]. *)
Definition day_slice (data : json) (days_difference : Z) : result (list (json * json)) :=
  data_day ← getitem data (JStr "data_day");
  keys ← iter data_day;
  for_each (fun key =>
              data_day' ← getitem data (JStr "data_day");
              column ← getitem data_day' key;
              v ← getitem column (JInt days_difference);
              Return (key, v)) keys.

Definition get_weather_data (env : environ) (w : World) (lat lon date : json)
  : result (option DayForecast) :=
  key ← getenv env "METEOBLUE_API_KEY";
  data ← requests_get_json w (weather_url w lat lon key);
  target_date ← strptime date;
  let today := now_forecast w in
  let days_difference := days_between target_date today in
  if (0 <=? days_difference) && (days_difference <? 7) then
    day_data ← day_slice data days_difference;
    f1 ← day_get "time" day_data;
    f2 ← day_get "temperature_max" day_data;
    f3 ← day_get "temperature_min" day_data;
    f4 ← day_get "temperature_mean" day_data;
    f5 ← day_get "felttemperature_max" day_data;
    f6 ← day_get "felttemperature_min" day_data;
    f7 ← day_get "precipitation" day_data;
    f8 ← day_get "precipitation_probability" day_data;
    f9 ← day_get "windspeed_mean" day_data;
    f10 ← day_get "winddirection" day_data;
    f11 ← day_get "pictocode" day_data;
    f12 ← day_get "uvindex" day_data;
    f13 ← day_get "relativehumidity_mean" day_data;
    Return (Some (mkDayForecast f1 f2 f3 f4 f5 f6 f7 f8 f9 f10 f11 f12 f13))
  else Return None.

(** ** Query interpreter (lines 96-114) *)

(** The f-string of lines 97-106. *)
Definition query_prompt (query : string) : string :=
  nl +:+ "    Extract the location and date from the following weather-related query. " +:+ nl
  +:+ "    If no specific date is mentioned, assume it's for today." +:+ nl
  +:+ "    Query: " +:+ query +:+ nl
  +:+ "    Return the result like this:" +:+ nl
  +:+ "    {" +:+ nl
  +:+ "        " +:+ dquote +:+ "location" +:+ dquote +:+ ": " +:+ dquote
  +:+ "extracted location" +:+ dquote +:+ "," +:+ nl
  +:+ "        " +:+ dquote +:+ "date" +:+ dquote +:+ ": " +:+ dquote
  +:+ "extracted date in YYYY-MM-DD format" +:+ dquote +:+ nl
  +:+ "    }" +:+ nl
  +:+ "    ".

(** [v == "today"]. *)
Definition is_today (v : json) : bool :=
  match v with
  | JStr s => String.eqb s "today"
  | _ => false
  end.

(** [extracted_info["date"] = v]; the subscript of line 112 has succeeded
    with a string key, so [extracted_info] is a [dict]. *)
Definition set_date (extracted_info : json) (v : json) : json :=
  match extracted_info with
  | JObj fs => JObj (assoc_set "date" v fs)
  | other => other
  end.

Definition process_user_query (w : World) (query : string) : result (json * json) :=
  result ← generate_content w (query_prompt query);
  extracted_info ← json_loads w result;
  d ← getitem extracted_info (JStr "date");
  let extracted_info :=
    if is_today d then set_date extracted_info (JStr (strftime (now_query w)))
    else extracted_info in
  location ← getitem extracted_info (JStr "location");
  date ← getitem extracted_info (JStr "date");
  Return (location, date).

(** ** Response composer (lines 117-155) *)

(** The integer a [float] equals, if any. *)
Definition float_to_Z (f : spec_float) : option Z :=
  match f with
  | S754_zero _ => Some 0
  | S754_finite s m e =>
      let sign := if s then -1 else 1 in
      if 0 <=? e then Some (sign * (Z.pos m * 2 ^ e))
      else if Z.pos m mod 2 ^ (- e) =? 0 then Some (sign * (Z.pos m / 2 ^ (- e)))
      else None
  | _ => None
  end.

(** [PICTOCODE_MEANINGS.get(v, "Unknown weather condition")] on any object:
    [True], [1] and [1.0] are the same key, and a [list] or a [dict] cannot
    be hashed. *)
Definition describe_value (v : json) : result string :=
  match v with
  | JInt z => Return (describe z)
  | JBool b => Return (describe (if b then 1 else 0))
  | JFloat f => Return (match float_to_Z f with
                        | Some z => describe z
                        | None => unknown_condition
                        end)
  | JNull | JStr _ => Return unknown_condition
  | JArr _ | JObj _ => Raise (TypeError ("unhashable type: '" +:+ type_name v +:+ "'"))
  end.

Definition deg : string := chr 176.

(** The f-string of lines 122-152. *)
Definition report_prompt (w : World) (weather_data : DayForecast) (location : json)
    (weather_condition : string) : string :=
  let f := py_str w in
  nl +:+ "    Analyze the following weather data and generate a detailed, natural language response:" +:+ nl
  +:+ "    " +:+ nl
  +:+ "    Location: " +:+ f location +:+ nl
  +:+ "    Date: " +:+ f (df_date weather_data) +:+ nl
  +:+ "    Weather Condition: " +:+ weather_condition +:+ nl
  +:+ "    Temperature:" +:+ nl
  +:+ "      - Max: " +:+ f (temperature_max weather_data) +:+ deg +:+ "C" +:+ nl
  +:+ "      - Min: " +:+ f (temperature_min weather_data) +:+ deg +:+ "C" +:+ nl
  +:+ "      - Mean: " +:+ f (temperature_mean weather_data) +:+ deg +:+ "C" +:+ nl
  +:+ "    Felt Temperature:" +:+ nl
  +:+ "      - Max: " +:+ f (felttemperature_max weather_data) +:+ deg +:+ "C" +:+ nl
  +:+ "      - Min: " +:+ f (felttemperature_min weather_data) +:+ deg +:+ "C" +:+ nl
  +:+ "    Precipitation: " +:+ f (precipitation weather_data) +:+ " mm" +:+ nl
  +:+ "    Precipitation Probability: " +:+ f (precipitation_probability weather_data) +:+ "%" +:+ nl
  +:+ "    Wind:" +:+ nl
  +:+ "      - Speed: " +:+ f (windspeed_mean weather_data) +:+ " m/s" +:+ nl
  +:+ "      - Direction: " +:+ f (winddirection weather_data) +:+ deg +:+ nl
  +:+ "    UV Index: " +:+ f (uvindex weather_data) +:+ nl
  +:+ "    Relative Humidity: " +:+ f (relativehumidity_mean weather_data) +:+ "%" +:+ nl
  +:+ nl
  +:+ "    Provide a comprehensive weather report that includes:" +:+ nl
  +:+ "    1. A summary of the overall weather condition" +:+ nl
  +:+ "    2. Temperature analysis, including how it might feel" +:+ nl
  +:+ "    3. Precipitation forecast and probability" +:+ nl
  +:+ "    4. Wind conditions and what they mean for the day" +:+ nl
  +:+ "    5. UV index interpretation and sun protection advice if needed" +:+ nl
  +:+ "    6. Any notable weather patterns or changes" +:+ nl
  +:+ nl
  +:+ "    The response should be friendly, informative, and easy to understand for the general public." +:+ nl
  +:+ "    ".

Definition generate_response (w : World) (weather_data : DayForecast) (location : json)
  : result string :=
  weather_condition ← describe_value (pictocode weather_data);
  generate_content w (report_prompt w weather_data location weather_condition).

(** ** Interactive loop (lines 158-191) *)

(** The four failure messages and the report line. *)
Definition M1 : string :=
  "Chatbot: I'm sorry, I couldn't understand the location or date in your query. Can you please rephrase?".

Definition M2 (w : World) (location : json) : string :=
  "Chatbot: I'm sorry, I couldn't find the coordinates for " +:+ py_str w location +:+ ".".

Definition M3 (w : World) (location date : json) : string :=
  "Chatbot: I'm sorry, I couldn't get weather data for " +:+ py_str w location
    +:+ " on " +:+ py_str w date +:+ ". The date might be out of range.".

Definition M4 (w : World) (e : exn) : string :=
  "Chatbot: I'm sorry, I encountered an error: " +:+ exn_str (py_repr w) e.

Definition report_line (response : string) : string := "Chatbot: " +:+ response.

(** The body of the [try] (lines 170-189): the line it prints, or the
    exception that leaves it. *)
Definition process (env : environ) (w : World) (user_input : string) : result string :=
  '(location, date) ← process_user_query w user_input;
  if truthy location && truthy date then
    '(lat, lon) ← geocode_location env w location;
    if truthy lat && truthy lon then
      weather_data ← get_weather_data env w lat lon date;
      match weather_data with
      | Some wd =>
          response ← generate_response w wd location;
          Return (report_line response)
      | None => Return (M3 w location date)
      end
    else Return (M2 w location)
  else Return M1.

(** The [try] with its handler (lines 169-191): the line one turn prints. *)
Definition turn (env : environ) (w : World) (user_input : string) : string :=
  match process env w user_input with
  | Return line => line
  | Raise e => M4 w e
  end.

(** [c.lower()] on a code point below 256. *)
Definition lower_ascii (c : ascii) : ascii :=
  let n := nat_of_ascii c in
  if ((65 <=? n) && (n <=? 90) || (192 <=? n) && (n <=? 222) && negb (n =? 215))%nat
  then ascii_of_nat (n + 32) else c.

(** [s.lower()]. *)
Fixpoint lower (s : string) : string :=
  match s with
  | EmptyString => EmptyString
  | String c s' => String (lower_ascii c) (lower s')
  end.

(** Line 165. *)
Definition is_exit (user_input : string) : bool := String.eqb (lower user_input) "exit".

(** What the process does on the terminal: [input(prompt)] and [print(line)]. *)
Inductive event : Type :=
  | Asked (prompt : string)
  | Printed (line : string).

(** Where the process stands: in [input], waiting for a line; ended after the
    farewell; or stopped by an exception nothing handles. *)
Inductive status : Type :=
  | Reading
  | Terminated
  | Failed (e : exn).

(** One passage through the body of [while True] on a line read. *)
Definition step (env : environ) (w : World) (user_input : string) : list event * status :=
  if is_exit user_input then ([Printed "Goodbye!"], Terminated)
  else ([Printed (turn env w user_input)], Reading).

(** What [input] meets after the lines typed: nothing yet, so that the
    process waits, or an exception of its own ([EOFError] when standard input
    has ended). *)
Inductive stdin_rest : Type :=
  | Waiting
  | InputRaises (e : exn).


(** The loop of lines 163-191 on the lines typed, each with the world of its
    turn, and on what [input] meets after them: it asks for a line, and
    either stops or takes a step and starts again.  Line 164 stands before
    the [try] of line 169: an exception of [input] is handled by nothing and
    stops the process, after the prompt has been shown. *)
Fixpoint run (env : environ) (inputs : list (World * string)) (after : stdin_rest)
  : list event * status :=
  match inputs with
  | [] =>
      match after with
      | Waiting => ([Asked "You: "], Reading)
      | InputRaises e => ([Asked "You: "], Failed e)
      end
  | (w, user_input) :: rest =>
      match step env w user_input with
      | (out, Reading) =>
          let '(out', st) := run env rest after in ((Asked "You: " :: out ++ out')%list, st)
      | (out, st) => (Asked "You: " :: out, st)
      end
  end.

(** The loop on the lines typed so far, while standard input stays open:
    after the last line it waits in [input]. *)
Definition loop (env : environ) (inputs : list (World * string)) : list event * status :=
  run env inputs Waiting.

Definition banner : list event :=
  [ Printed "Welcome to the Enhanced Weather Chatbot!";
    Printed "You can ask questions like: 'What's the weather in Munich on 2024-09-30?'";
    Printed "Type 'exit' to quit." ].

(** The whole module: line 9 reads the text-generation credential while the
    module is loaded, then the banner and the loop. *)
Definition main (env : environ) (inputs : list (World * string)) : list event * status :=
  match getenv env "GEMINI_API_KEY" with
  | Raise e => ([], Failed e)
  | Return _ =>
      let '(out, st) := loop env inputs in ((banner ++ out)%list, st)
  end.

(** ** Reference notions for the properties *)

(** The thirteen fields the forecast adapter reads, in the order of lines
    78-90. *)
Definition field_names : list string :=
  [ "time"; "temperature_max"; "temperature_min"; "temperature_mean";
    "felttemperature_max"; "felttemperature_min"; "precipitation";
    "precipitation_probability"; "windspeed_mean"; "winddirection";
    "pictocode"; "uvindex"; "relativehumidity_mean" ].

(** A per-field day array of the provider: a list with the seven days. *)
Definition column_ok (v : json) : bool :=
  match v with
  | JArr l => (7 <=? length l)%nat
  | _ => false
  end.

(** The fields of the object under ["data_day"] in a forecast document. *)
Definition data_day_fields (data : json) : option (list (string * json)) :=
  match data with
  | JObj top => match assoc "data_day" top with
                | Some (JObj fs) => Some fs
                | _ => None
                end
  | _ => None
  end.

(** A forecast document as the provider sends it: ["data_day"] is an object
    whose values are all day arrays, the thirteen fields among them. *)
Definition provider_ok (data : json) : bool :=
  match data_day_fields data with
  | Some fs =>
      forallb (fun kv => column_ok kv.2) fs &&
      forallb (fun k => bool_decide (is_Some (assoc k fs))) field_names
  | None => false
  end.

(** Entry [i] of the day array of field [k]. *)
Definition column (fs : list (string * json)) (k : string) (i : Z) : option json :=
  match assoc k fs with
  | Some (JArr l) => if 0 <=? i then l !! Z.to_nat i else None
  | _ => None
  end.

(** The value the comprehension of lines 74-76 stores under the key [k]. *)
Definition cell (fs : list (string * json)) (i : Z) (k : string) : json :=
  default JNull (column fs k i).

(** The record made of entry [i] of each of the thirteen day arrays. *)
Definition project_day (data : json) (i : Z) : option DayForecast :=
  fs ← data_day_fields data;
  f1 ← column fs "time" i;
  f2 ← column fs "temperature_max" i;
  f3 ← column fs "temperature_min" i;
  f4 ← column fs "temperature_mean" i;
  f5 ← column fs "felttemperature_max" i;
  f6 ← column fs "felttemperature_min" i;
  f7 ← column fs "precipitation" i;
  f8 ← column fs "precipitation_probability" i;
  f9 ← column fs "windspeed_mean" i;
  f10 ← column fs "winddirection" i;
  f11 ← column fs "pictocode" i;
  f12 ← column fs "uvindex" i;
  f13 ← column fs "relativehumidity_mean" i;
  Some (mkDayForecast f1 f2 f3 f4 f5 f6 f7 f8 f9 f10 f11 f12 f13).

(** A call of one of the four stages, with what it returned or raised. *)
Inductive stage_event : Type :=
  | Interpreted (r : result (json * json))
  | Geocoded (location : json) (r : result (json * json))
  | Forecast (lat lon date : json) (r : result (option DayForecast))
  | Composed (weather_data : DayForecast) (location : json) (r : result string).

(** The calls one turn makes, in order: the control flow of [process] with
    each call written down. *)
Definition stage_log (env : environ) (w : World) (user_input : string) : list stage_event :=
  let r1 := process_user_query w user_input in
  Interpreted r1 ::
  match r1 with
  | Return (location, date) =>
      if truthy location && truthy date then
        let r2 := geocode_location env w location in
        Geocoded location r2 ::
        match r2 with
        | Return (lat, lon) =>
            if truthy lat && truthy lon then
              let r3 := get_weather_data env w lat lon date in
              Forecast lat lon date r3 ::
              match r3 with
              | Return (Some wd) =>
                  [Composed wd location (generate_response w wd location)]
              | _ => []
              end
            else []
        | Raise _ => []
        end
      else []
  | Raise _ => []
  end.

(** The exception a call ended with, if it did. *)
Definition raised (ev : stage_event) : option exn :=
  match ev with
  | Interpreted (Raise e) | Geocoded _ (Raise e)
  | Forecast _ _ _ (Raise e) | Composed _ _ (Raise e) => Some e
  | _ => None
  end.

(** A number that the truth test of line 173 takes for nothing: the integer
    0 and the floats 0.0 and -0.0. *)
Definition zero_number (v : json) : bool :=
  match v with
  | JInt z => z =? 0
  | JFloat (S754_zero _) => true
  | _ => false
  end.

(** What the loop shows for lines that are answered: for each, the prompt
    and the line of the turn. *)
Definition answers (env : environ) (inputs : list (World * string)) : list event :=
  flat_map (fun i => [Asked "You: "; Printed (turn env i.1 i.2)]) inputs.

(** The first of the thirteen fields, in the order of lines 78-90, that a
    [data_day] object does not have. *)
Definition first_missing (fs : list (string * json)) : option string :=
  find (fun k => match assoc k fs with Some _ => false | None => true end) field_names.

(** The order of the calendar: [a] is a day before [b]. *)
Definition date_ltb (a b : Date) : bool :=
  (year a <? year b) ||
  ((year a =? year b) &&
   ((month a <? month b) || ((month a =? month b) && (day a <? day b)))).

(** A date written without padding, as in 2024-9-5. *)
Definition write_unpadded (d : Date) : string :=
  str_of_Z (year d) +:+ "-" +:+ str_of_Z (month d) +:+ "-" +:+ str_of_Z (day d).

(** ** Sample worlds *)

(** Worlds for the examples: the model's first reply is the text [reply],
    which [json.loads] turns into [parsed]; the geocoding service answers
    [geo], the forecast service answers [fc], the model's second reply is
    "Sunny."; it is September 27th, 2024.  [str] and [repr] are given on
    strings and integers, which is all the examples print. *)
Definition sample_str (v : json) : string :=
  match v with
  | JStr s => s
  | JInt z => str_of_Z z
  | _ => "..."
  end.

Definition sample_repr (v : json) : string :=
  match v with
  | JStr s => "'" +:+ s +:+ "'"
  | JInt z => str_of_Z z
  | _ => "..."
  end.

Definition sample_world (reply : string) (parsed geo fc : result json) : World := {|
  generate_content p :=
    if String.prefix (nl +:+ "    Extract") p then Return reply else Return "Sunny.";
  json_loads s :=
    if String.eqb s reply then parsed
    else Raise (ServiceError "Expecting value: line 1 column 1 (char 0)");
  requests_get_json u :=
    if String.prefix "https://api.opencagedata.com/" u then geo else fc;
  now_query := mkdate 2024 9 27;
  now_forecast := mkdate 2024 9 27;
  py_str := sample_str;
  py_repr := sample_repr
|}.

(** A string between double quotes. *)
Definition quoted (s : string) : string := dquote +:+ s +:+ dquote.

(** The JSON text of a reply with both fields, and what it parses to. *)
Definition reply_text (location date : string) : string :=
  "{" +:+ quoted "location" +:+ ": " +:+ quoted location +:+ ", "
      +:+ quoted "date" +:+ ": " +:+ quoted date +:+ "}".

Definition reply_world (location date : string) (geo fc : result json) : World :=
  sample_world (reply_text location date)
               (Return (JObj [("location", JStr location); ("date", JStr date)])) geo fc.

Definition sample_env : environ :=
  {[ "GEMINI_API_KEY" := "g"; "OPENCAGE_API_KEY" := "o"; "METEOBLUE_API_KEY" := "m" ]}.

(** A geocoding document with one result. *)
Definition geo_of (lat lng : json) : result json :=
  Return (JObj [("results", JArr [JObj [("geometry", JObj [("lat", lat); ("lng", lng)])]])]).

(** A forecast document: seven days from September 27th, 2024, pictocode 1
    to 7, every other field holding the day number. *)
Definition sample_days : list json :=
  [ JStr "2024-09-27"; JStr "2024-09-28"; JStr "2024-09-29"; JStr "2024-09-30";
    JStr "2024-10-01"; JStr "2024-10-02"; JStr "2024-10-03" ].

Definition sample_numbers : json := JArr (JInt <$> [1; 2; 3; 4; 5; 6; 7]).

Definition sample_forecast : json :=
  JObj [("data_day",
         JObj (("time", JArr sample_days)
               :: ((fun k => (k, sample_numbers)) <$> tail field_names)))].

(** Munich, three days ahead. *)
Definition munich_world : World :=
  reply_world "Munich" "2024-09-30"
               (geo_of (JInt 48) (JInt 11)) (Return sample_forecast).

(** The model leaves the location empty. *)
Definition empty_location_world : World :=
  reply_world "" "2024-09-30"
               (geo_of (JInt 48) (JInt 11)) (Return sample_forecast).

(** A place on the equator: latitude 0.0. *)
Definition equator_world : World :=
  reply_world "Quito" "2024-09-30"
               (geo_of (JFloat (S754_zero false)) (JInt (-78))) (Return sample_forecast).

(** The model's reply is not JSON. *)
Definition malformed_world : World :=
  sample_world "Sorry, I cannot help with that."
               (Raise (ServiceError "Expecting value: line 1 column 1 (char 0)"))
               (geo_of (JInt 48) (JInt 11)) (Return sample_forecast).

(** The model's reply has no date field. *)
Definition missing_date_world : World :=
  sample_world ("{" +:+ quoted "location" +:+ ": " +:+ quoted "Munich" +:+ "}")
               (Return (JObj [("location", JStr "Munich")]))
               (geo_of (JInt 48) (JInt 11)) (Return sample_forecast).

(** The first geocoding result has a null latitude. *)
Definition null_lat_world : World :=
  reply_world "Munich" "2024-09-30"
               (geo_of JNull (JInt 11)) (Return sample_forecast).

(** The geocoding service finds nothing. *)
Definition atlantis_world : World :=
  reply_world "Atlantis" "2024-09-30"
               (Return (JObj [("results", JArr [])])) (Return sample_forecast).




(** The model answers "today". *)
Definition today_world : World :=
  reply_world "Munich" "today"
               (geo_of (JInt 48) (JInt 11)) (Return sample_forecast).

(** An environment with the text-generation credential only. *)
Definition gemini_only_env : environ := {[ "GEMINI_API_KEY" := "g" ]}.

(** A date beyond the seven days of the forecast. *)
Definition far_date_world : World :=
  reply_world "Munich" "2024-10-10" (geo_of (JInt 48) (JInt 11)) (Return sample_forecast).

(** The model's reply is JSON, but a list and not an object. *)
Definition list_reply_world : World :=
  sample_world ("[" +:+ quoted "Munich" +:+ ", " +:+ quoted "2024-09-30" +:+ "]")
               (Return (JArr [JStr "Munich"; JStr "2024-09-30"]))
               (geo_of (JInt 48) (JInt 11)) (Return sample_forecast).

(** The geocoding service finds two places; the first result has no
    geometry in the second world. *)
Definition two_results_world : World :=
  reply_world "Springfield" "2024-09-30"
    (Return (JObj [("results",
       JArr [ JObj [("geometry", JObj [("lat", JInt 39); ("lng", JInt (-89))])];
              JObj [("geometry", JObj [("lat", JInt 42); ("lng", JInt (-72))])] ])]))
    (Return sample_forecast).

Definition no_geometry_world : World :=
  reply_world "Munich" "2024-09-30"
    (Return (JObj [("results", JArr [JObj [("formatted", JStr "Munich, Germany")]])]))
    (Return sample_forecast).

(** Forecast documents of another shape: an extra field that is not a day
    array (the provider's [units]-like entry, here a number), and a document
    without the field ["uvindex"]. *)
Definition extra_field_forecast : json :=
  JObj [("data_day",
         JObj (("time", JArr sample_days) :: ("version", JInt 2)
               :: ((fun k => (k, sample_numbers)) <$> tail field_names)))].

Definition no_uvindex_forecast : json :=
  JObj [("data_day",
         JObj (("time", JArr sample_days)
               :: ((fun k => (k, sample_numbers))
                     <$> filter (fun k => k <> "uvindex") (tail field_names))))].

Definition extra_field_world : World :=
  reply_world "Munich" "2024-09-30" (geo_of (JInt 48) (JInt 11)) (Return extra_field_forecast).

Definition no_uvindex_world : World :=
  reply_world "Munich" "2024-09-30" (geo_of (JInt 48) (JInt 11)) (Return no_uvindex_forecast).

(** A date of the week before. *)
Definition past_date_world : World :=
  reply_world "Munich" "2024-09-20" (geo_of (JInt 48) (JInt 11)) (Return sample_forecast).

(** * Properties *)

(** ** Condition lookup *)

Lemma pictocode_keys : pictocode_table.*1 = Z.of_nat <$> seq 1 35.
Proof. reflexivity. Qed.

Lemma pictocode_keys_nodup : NoDup pictocode_table.*1.
Proof.
  rewrite pictocode_keys. apply NoDup_fmap_2; [intros ? ?; lia | apply NoDup_seq].
Qed.

Lemma pictocode_key_range (code : Z) : code ∈ pictocode_table.*1 <-> 1 <= code <= 35.
Proof.
  rewrite pictocode_keys, list_elem_of_fmap. split.
  - intros (n & -> & Hn). apply elem_of_seq in Hn. lia.
  - intros H. exists (Z.to_nat code). split; [lia | apply elem_of_seq; lia].
Qed.

(** C2: [describe] is a total function that returns the table's string for
    every code from 1 to 35, and "Unknown weather condition" for every other
    integer (0, 36 and -1 among them); it is what the response composer
    computes on an integer pictocode. *)
Theorem describe_spec (code : Z) :
  (forall s, In (code, s) pictocode_table -> describe code = s) /\
  ((1 <= code <= 35) <-> (exists s, In (code, s) pictocode_table)) /\
  (~ (1 <= code <= 35) -> describe code = "Unknown weather condition") /\
  describe 0 = "Unknown weather condition" /\
  describe 36 = "Unknown weather condition" /\
  describe (-1) = "Unknown weather condition" /\
  describe_value (JInt code) = Return (describe code).
Proof.
  split; [|split; [|split]].
  - intros s Hin. unfold describe, PICTOCODE_MEANINGS.
    apply list_elem_of_In in Hin.
    apply (elem_of_list_to_map_1 (M := gmap Z)) in Hin; [|apply pictocode_keys_nodup].
    now rewrite Hin.
  - rewrite <- pictocode_key_range, list_elem_of_fmap. split.
    + intros ([k s] & -> & Hin). exists s. now apply list_elem_of_In.
    + intros (s & Hin). exists (code, s). split; [reflexivity | now apply list_elem_of_In].
  - intros Hout. unfold describe, PICTOCODE_MEANINGS.
    rewrite (proj1 (not_elem_of_list_to_map (M := gmap Z) pictocode_table code)); [reflexivity|].
    now rewrite pictocode_key_range.
  - repeat split; reflexivity.
Qed.

(** ** Interactive loop *)

Lemma is_exit_true (s : string) : is_exit s = true <-> lower s = "exit".
Proof. unfold is_exit. apply String.eqb_eq. Qed.

Lemma is_exit_false (s : string) : is_exit s = false <-> lower s <> "exit".
Proof. unfold is_exit. apply String.eqb_neq. Qed.

Lemma run_exit env w line rest after :
  lower line = "exit" ->
  run env ((w, line) :: rest) after = ([Asked "You: "; Printed "Goodbye!"], Terminated).
Proof.
  intros H%is_exit_true. cbn [run]. unfold step. now rewrite H.
Qed.

Lemma run_turn env w line rest after :
  lower line <> "exit" ->
  run env ((w, line) :: rest) after =
    (Asked "You: " :: Printed (turn env w line) :: (run env rest after).1,
     (run env rest after).2).
Proof.
  intros H%is_exit_false. cbn [run]. unfold step. rewrite H.
  now destruct (run env rest after).
Qed.

Lemma loop_exit env w line rest :
  lower line = "exit" ->
  loop env ((w, line) :: rest) = ([Asked "You: "; Printed "Goodbye!"], Terminated).
Proof. apply run_exit. Qed.

Lemma loop_turn env w line rest :
  lower line <> "exit" ->
  loop env ((w, line) :: rest) =
    (Asked "You: " :: Printed (turn env w line) :: (loop env rest).1, (loop env rest).2).
Proof. apply run_turn. Qed.

Lemma loop_never_fails env inputs e : (loop env inputs).2 <> Failed e.
Proof.
  induction inputs as [|[w line] rest IH]; [discriminate|].
  destruct (decide (lower line = "exit")) as [Hx|Hx].
  - now rewrite loop_exit.
  - now rewrite loop_turn.
Qed.













Lemma bind_Return {A B : Type} (a : A) (k : A -> result B) : (Return a ≫= k) = k a.
Proof. reflexivity. Qed.

Lemma bind_Raise {A B : Type} (e : exn) (k : A -> result B) : (Raise e ≫= k) = Raise e.
Proof. reflexivity. Qed.

(** Case analysis on the calls of a turn and on the tests between them. *)
Ltac turn_cases env w line :=
  unfold stage_log, process;
  destruct (process_user_query w line) as [[?location ?date]|?e]; cbn [In];
  rewrite ?bind_Return, ?bind_Raise;
  [destruct (truthy _ && truthy _); cbn [In];
   [destruct (geocode_location env w _) as [[?lat ?lon]|?e]; cbn [In];
    rewrite ?bind_Return, ?bind_Raise;
    [destruct (truthy _ && truthy _); cbn [In];
     [destruct (get_weather_data env w _ _ _) as [[?wd|]|?e]; cbn [In];
      rewrite ?bind_Return, ?bind_Raise | ]
    | ]
   | ]
  | ].

(** The forecast adapter is called after the two presence tests. *)
Lemma log_forecast env w line lat lon date r :
  In (Forecast lat lon date r) (stage_log env w line) ->
  exists location,
    process_user_query w line = Return (location, date) /\
    truthy location && truthy date = true /\
    geocode_location env w location = Return (lat, lon) /\
    truthy lat && truthy lon = true /\
    r = get_weather_data env w lat lon date.
Proof.
  unfold stage_log.
  destruct (process_user_query w line) as [[location date']|e0]; cbn [In];
    [|intros [[=]|[]]].
  destruct (truthy location && truthy date') eqn:Ht; cbn [In]; [|intros [[=]|[]]].
  destruct (geocode_location env w location) as [[lat' lon']|e0] eqn:Hg; cbn [In];
    [|intros [[=]|[[=]|[]]]].
  destruct (truthy lat' && truthy lon') eqn:Hc; cbn [In]; [|intros [[=]|[[=]|[]]]].
  intros [[=]|[[=]|[H|H]]].
  - injection H as -> -> -> <-. now exists location.
  - destruct (get_weather_data env w lat' lon' date') as [[wd|]|e0]; cbn [In] in H;
      [destruct H as [[=]|[]] | destruct H | destruct H].
Qed.

(** The composer is called on the record the forecast adapter returned, and
    the line of the turn is made of what it returns. *)
Lemma log_composed env w line wd location r :
  In (Composed wd location r) (stage_log env w line) ->
  process env w line = (response ← r; Return (report_line response)).
Proof.
  turn_cases env w line; intros H;
    repeat match goal with
           | H : _ \/ _ |- _ => destruct H as [H|H]
           | H : False |- _ => destruct H
           end; try discriminate H.
  now injection H as -> -> <-.
Qed.


(** And the body of the [try] raises nothing of its own: its exception is
    the exception of the last call. *)
Lemma process_raise_from_stage env w line e :
  process env w line = Raise e ->
  exists ev, In ev (stage_log env w line) /\ raised ev = Some e.
Proof.
  turn_cases env w line; intros H; try discriminate H.
  - destruct (generate_response w wd location) as [response|e'] eqn:Hr;
      [discriminate H|].
    injection H as ->. eexists. split; [do 3 right; left; reflexivity | reflexivity].
  - injection H as ->. eexists. split; [do 2 right; left; reflexivity | reflexivity].
  - injection H as ->. eexists. split; [right; left; reflexivity | reflexivity].
  - injection H as ->. eexists. split; [left; reflexivity | reflexivity].
Qed.


(** ** Forecast adapter *)

Lemma assoc_Some_elem k v fs : assoc k fs = Some v -> (k, v) ∈ fs.
Proof.
  induction fs as [|[k' v'] fs IH]; cbn; [discriminate|].
  destruct (String.eqb_spec k k') as [->|Hne].
  - intros [= ->]. apply list_elem_of_here.
  - intros H. apply list_elem_of_further. now apply IH.
Qed.

Lemma assoc_is_Some k fs : k ∈ fs.*1 -> is_Some (assoc k fs).
Proof.
  induction fs as [|[k' v'] fs IH]; cbn.
  - intros H. inversion H.
  - intros H. destruct (String.eqb_spec k k') as [->|Hne]; [eauto|].
    apply IH. apply elem_of_cons in H as [H|H]; [contradiction | exact H].
Qed.

Lemma column_ok_index v i :
  column_ok v = true -> 0 <= i < 7 ->
  exists l x, v = JArr l /\ l !! Z.to_nat i = Some x /\ getitem v (JInt i) = Return x.
Proof.
  destruct v as [| | | | |l|]; try discriminate.
  unfold column_ok. intros Hl%Nat.leb_le Hi.
  destruct (lookup_lt_is_Some_2 l (Z.to_nat i)) as [x Hx]; [lia|].
  exists l, x. split; [reflexivity|]. split; [exact Hx|].
  cbn [getitem as_index]. unfold index_seq.
  destruct (Z.ltb_spec i 0); [lia|].
  destruct (Z.leb_spec 0 i); [|lia].
  destruct (Z.ltb_spec i (Z.of_nat (length l))); [|lia].
  cbn. now rewrite Hx.
Qed.

Lemma for_each_cons {A B : Type} (f : A -> result B) x l :
  for_each f (x :: l) = y ← f x; ys ← for_each f l; Return (y :: ys).
Proof. reflexivity. Qed.

Section DaySlice.
Variables (top fs : list (string * json)) (i : Z).
Hypothesis Htop : assoc "data_day" top = Some (JObj fs).
Hypothesis Hcols : forall kv, kv ∈ fs -> column_ok kv.2 = true.
Hypothesis Hi : 0 <= i < 7.

Lemma column_cell k : is_Some (assoc k fs) -> column fs k i = Some (cell fs i k).
Proof.
  intros [v Hv]. unfold cell, column. rewrite Hv.
  destruct (column_ok_index v i) as (l & x & -> & Hx & _);
    [apply (Hcols (k, v)); now apply assoc_Some_elem | exact Hi |].
  destruct (Z.leb_spec 0 i); [|lia]. now rewrite Hx.
Qed.

Lemma slice_keys ks :
  (forall k, k ∈ ks -> is_Some (assoc k fs)) ->
  for_each (fun key =>
              col ← getitem (JObj fs) key;
              v ← getitem col (JInt i);
              Return (key, v)) (JStr <$> ks)
  = Return ((fun k => (JStr k, cell fs i k)) <$> ks).
Proof.
  induction ks as [|k ks IH]; intros Hks; [reflexivity|].
  destruct (Hks k) as [v Hv]; [apply list_elem_of_here|].
  destruct (column_ok_index v i) as (l & x & -> & Hx & Hg);
    [apply (Hcols (k, v)); now apply assoc_Some_elem | exact Hi |].
  rewrite !fmap_cons, for_each_cons, IH
    by (intros k' Hk'; apply Hks; now apply list_elem_of_further).
  cbn [mbind result_bind getitem]. rewrite Hv.
  cbn [mbind result_bind]. rewrite Hg. cbn [mbind result_bind].
  unfold cell, column. rewrite Hv.
  destruct (Z.leb_spec 0 i); [|lia]. now rewrite Hx.
Qed.

Lemma day_slice_eq :
  day_slice (JObj top) i = Return ((fun k => (JStr k, cell fs i k)) <$> fs.*1).
Proof.
  assert (Hget : getitem (JObj top) (JStr "data_day") = Return (JObj fs))
    by (cbn [getitem]; now rewrite Htop).
  unfold day_slice. rewrite Hget. cbn [mbind result_bind iter].
  apply slice_keys. intros k. apply assoc_is_Some.
Qed.

Lemma day_get_slice k ks :
  k ∈ ks -> day_get k ((fun k => (JStr k, cell fs i k)) <$> ks) = Return (cell fs i k).
Proof.
  induction ks as [|k' ks IH]; intros Hk; [inversion Hk|].
  cbn. destruct (String.eqb_spec k k') as [->|Hne]; [reflexivity|].
  apply IH. apply elem_of_cons in Hk as [Hk|Hk]; [contradiction | exact Hk].
Qed.
End DaySlice.

Lemma provider_ok_inv data :
  provider_ok data = true ->
  exists top fs,
    data = JObj top /\ assoc "data_day" top = Some (JObj fs) /\
    data_day_fields data = Some fs /\
    (forall kv, kv ∈ fs -> column_ok kv.2 = true) /\
    (forall k, k ∈ field_names -> is_Some (assoc k fs)).
Proof.
  unfold provider_ok, data_day_fields.
  destruct data as [| | | | | |top]; try discriminate.
  destruct (assoc "data_day" top) as [[| | | | | |fs]|] eqn:Htop; try discriminate.
  intros [Hc Hf]%andb_prop. exists top, fs. repeat split; try assumption.
  - intros kv Hkv. rewrite forallb_forall in Hc. apply Hc. now apply list_elem_of_In.
  - intros k Hk. rewrite forallb_forall in Hf.
    apply list_elem_of_In, Hf, bool_decide_eq_true in Hk. exact Hk.
Qed.

Lemma assoc_key_elem k fs : is_Some (assoc k fs) -> k ∈ fs.*1.
Proof.
  intros [v Hv%assoc_Some_elem]. apply list_elem_of_fmap. now exists (k, v).
Qed.

Lemma in_window_dec (n : Z) : (0 <=? n) && (n <? 7) = true <-> 0 <= n < 7.
Proof. rewrite andb_true_iff, Z.leb_le, Z.ltb_lt. reflexivity. Qed.

Lemma field_names_elem k :
  k ∈ field_names <->
  In k [ "time"; "temperature_max"; "temperature_min"; "temperature_mean";
         "felttemperature_max"; "felttemperature_min"; "precipitation";
         "precipitation_probability"; "windspeed_mean"; "winddirection";
         "pictocode"; "uvindex"; "relativehumidity_mean" ].
Proof. unfold field_names. now rewrite list_elem_of_In. Qed.

(** Runs [tac] on each of the thirteen field names. *)
Ltac for_fields tac :=
  tac "time"; tac "temperature_max"; tac "temperature_min"; tac "temperature_mean";
  tac "felttemperature_max"; tac "felttemperature_min"; tac "precipitation";
  tac "precipitation_probability"; tac "windspeed_mean"; tac "winddirection";
  tac "pictocode"; tac "uvindex"; tac "relativehumidity_mean".

(** Inside the window, on a document of the provider, the adapter returns
    the projection [project_day]. *)
Lemma forecast_in_window env w lat lon date key data target :
  env !! "METEOBLUE_API_KEY" = Some key ->
  requests_get_json w (weather_url w lat lon key) = Return data ->
  strptime date = Return target ->
  provider_ok data = true ->
  0 <= days_between target (now_forecast w) < 7 ->
  exists r, get_weather_data env w lat lon date = Return (Some r) /\
            project_day data (days_between target (now_forecast w)) = Some r.
Proof.
  intros Henv Hhttp Hdate Hok Hin.
  destruct (provider_ok_inv data Hok) as (top & fs & -> & Htop & Hfs & Hcols & Hnames).
  set (i := days_between target (now_forecast w)) in *.
  assert (Hcell : forall k, k ∈ field_names ->
            day_get k ((fun k => (JStr k, cell fs i k)) <$> fs.*1) = Return (cell fs i k) /\
            column fs k i = Some (cell fs i k)).
  { intros k Hk. split.
    - apply day_get_slice. apply assoc_key_elem, Hnames, Hk.
    - apply column_cell; [exact Hcols | exact Hin | apply Hnames, Hk]. }
  eexists. split.
  - unfold get_weather_data, getenv. rewrite Henv, bind_Return, Hhttp, bind_Return.
    rewrite Hdate, bind_Return. fold i. rewrite (proj2 (in_window_dec i) Hin).
    rewrite (day_slice_eq top fs i Htop Hcols Hin), bind_Return.
    for_fields ltac:(fun k =>
      rewrite (proj1 (Hcell k (proj2 (field_names_elem k) ltac:(cbn; tauto)))), bind_Return).
    reflexivity.
  - unfold project_day. rewrite Hfs. cbn [mbind option_bind].
    for_fields ltac:(fun k =>
      rewrite (proj2 (Hcell k (proj2 (field_names_elem k) ltac:(cbn; tauto))));
      cbn [mbind option_bind]).
    reflexivity.
Qed.

(** Outside the window the adapter returns the absent result, whatever the
    document holds. *)
Lemma forecast_out_of_window env w lat lon date key data target :
  env !! "METEOBLUE_API_KEY" = Some key ->
  requests_get_json w (weather_url w lat lon key) = Return data ->
  strptime date = Return target ->
  ~ 0 <= days_between target (now_forecast w) < 7 ->
  get_weather_data env w lat lon date = Return None.
Proof.
  intros Henv Hhttp Hdate Hout.
  unfold get_weather_data, getenv. rewrite Henv, bind_Return, Hhttp, bind_Return.
  rewrite Hdate, bind_Return.
  destruct ((0 <=? _) && (_ <? 7)) eqn:E; [|reflexivity].
  apply in_window_dec in E. contradiction.
Qed.

(** C1: with [offset] the difference in days between the requested date and
    today, both as calendar dates, the forecast adapter returns a day record
    if and only if [0 <= offset < 7], and the record is the projection of the
    provider's day arrays at index [offset]; for every other offset, 7 and
    -1 among them, it returns the absent result and raises nothing. *)
Theorem forecast_window (env : environ) (w : World) (lat lon date : json)
    (key : string) (data : json) (target : Date) :
  env !! "METEOBLUE_API_KEY" = Some key ->
  requests_get_json w (weather_url w lat lon key) = Return data ->
  strptime date = Return target ->
  let offset := toordinal target - toordinal (now_forecast w) in
  (forall r, get_weather_data env w lat lon date = Return (Some r) -> 0 <= offset < 7) /\
  (~ 0 <= offset < 7 -> get_weather_data env w lat lon date = Return None) /\
  (offset = 7 \/ offset = -1 -> get_weather_data env w lat lon date = Return None) /\
  (provider_ok data = true ->
     ((exists r, get_weather_data env w lat lon date = Return (Some r)) <-> 0 <= offset < 7) /\
     (0 <= offset < 7 ->
        exists r, get_weather_data env w lat lon date = Return (Some r) /\
                  project_day data offset = Some r)).
Proof.
  intros Henv Hhttp Hdate offset.
  assert (Hout : ~ 0 <= offset < 7 -> get_weather_data env w lat lon date = Return None)
    by (intros H; now apply (forecast_out_of_window env w lat lon date key data target)).
  assert (Hsome : forall r, get_weather_data env w lat lon date = Return (Some r) ->
                            0 <= offset < 7).
  { intros r Hr. destruct (decide (0 <= offset < 7)) as [|Hn]; [assumption|].
    rewrite (Hout Hn) in Hr. discriminate. }
  split; [exact Hsome|]. split; [exact Hout|]. split; [intros H; apply Hout; lia|].
  intros Hok.
  assert (Hin : 0 <= offset < 7 ->
            exists r, get_weather_data env w lat lon date = Return (Some r) /\
                      project_day data offset = Some r)
    by (intros H; now apply (forecast_in_window env w lat lon date key data target)).
  split; [|exact Hin]. split.
  - intros [r Hr]. now apply (Hsome r).
  - intros H. destruct (Hin H) as (r & Hr & _). now exists r.
Qed.

(** ** Dates written and read back *)

Lemma year_digits (y : Z) :
  1000 <= y <= 9999 ->
  exists a b c d,
    str_of_Z y = String a (String b (String c (String d EmptyString))) /\
    is_digit a && is_digit b && is_digit c && is_digit d = true /\
    1000 * digit a + 100 * digit b + 10 * digit c + digit d = y.
Proof.
  intros Hy.
  set (chk := fun y : Z =>
         match str_of_Z y with
         | String a (String b (String c (String d EmptyString))) =>
             is_digit a && is_digit b && is_digit c && is_digit d &&
             (1000 * digit a + 100 * digit b + 10 * digit c + digit d =? y)
         | _ => false
         end).
  assert (Hall : forallb chk (map (fun n => 1000 + Z.of_nat n) (seq 0 (Z.to_nat 9000))) = true)
    by (vm_compute; reflexivity).
  rewrite forallb_forall in Hall.
  assert (H : chk y = true).
  { apply Hall, in_map_iff. exists (Z.to_nat (y - 1000)).
    split; [lia | apply in_seq; lia]. }
  unfold chk in H.
  destruct (str_of_Z y) as [|a [|b [|c [|d [|? ?]]]]]; try discriminate H.
  exists a, b, c, d. split; [reflexivity|].
  apply andb_prop in H as [H1 H2]. split; [exact H1 | now apply Z.eqb_eq].
Qed.

Lemma month_day_digits (m d : Z) :
  1 <= m <= 12 -> 1 <= d <= 31 ->
  match_month (pad 2 (str_of_Z m) +:+ "-" +:+ pad 2 (str_of_Z d))
    = Some (m, pad 2 (str_of_Z d)) /\
  match_day (pad 2 (str_of_Z d)) = Some (d, "").
Proof.
  intros Hm Hd.
  assert (Hall : forallb (fun i => forallb (fun j =>
            let m := Z.of_nat i in let d := Z.of_nat j in
            bool_decide (match_month (pad 2 (str_of_Z m) +:+ "-" +:+ pad 2 (str_of_Z d))
                           = Some (m, pad 2 (str_of_Z d))) &&
            bool_decide (match_day (pad 2 (str_of_Z d)) = Some (d, "")))
            (seq 1 31)) (seq 1 12) = true) by (vm_compute; reflexivity).
  rewrite forallb_forall in Hall.
  specialize (Hall (Z.to_nat m) ltac:(apply in_seq; lia)).
  rewrite forallb_forall in Hall.
  specialize (Hall (Z.to_nat d) ltac:(apply in_seq; lia)).
  cbv zeta in Hall. rewrite !Z2Nat.id in Hall by lia.
  apply andb_prop in Hall as [H1%bool_decide_eq_true H2%bool_decide_eq_true].
  now split.
Qed.

Lemma match_year_digits a b c d rest :
  is_digit a && is_digit b && is_digit c && is_digit d = true ->
  match_year (String a (String b (String c (String d EmptyString))) +:+ "-" +:+ rest)
    = Some (1000 * digit a + 100 * digit b + 10 * digit c + digit d, rest).
Proof.
  intros H. change (match_year (String a (String b (String c (String d (String "-" rest)))))
                     = Some (1000 * digit a + 100 * digit b + 10 * digit c + digit d, rest)).
  unfold match_year. rewrite H. reflexivity.
Qed.

Lemma days_in_month_le (y m : Z) : days_in_month y m <= 31.
Proof.
  unfold days_in_month.
  repeat match goal with |- context [if ?b then _ else _] => destruct b end; lia.
Qed.

(** What [strftime] writes, [strptime] reads back as the same date. *)
Lemma strptime_strftime (d : Date) :
  valid_date d = true -> 1000 <= year d ->
  strptime (JStr (strftime d)) = Return d.
Proof.
  destruct d as [y m dd]. unfold valid_date. cbn [year month day].
  rewrite !andb_true_iff, !Z.leb_le. intros [[[[[Hy1 Hy2] Hm1] Hm2] Hd1] Hd2] Hy.
  pose proof (days_in_month_le y m) as Hle.
  destruct (year_digits y) as (a & b & c & e & Hpad & Hdig & Hval); [lia|].
  destruct (month_day_digits m dd) as [Hmm Hmd]; [lia | lia |].
  cbn [strptime]. unfold strptime_str, strftime. cbn [year month day].
  rewrite Hpad, (match_year_digits a b c e _ Hdig), Hmm, Hmd, Hval.
  cbn [String.eqb negb].
  destruct (Z.eqb_spec y 0); [lia|].
  destruct (Z.ltb_spec (days_in_month y m) dd); [lia|].
  reflexivity.
Qed.

(** ** Query interpreter *)

Lemma length_append (s1 s2 : string) :
  String.length (s1 +:+ s2) = (String.length s1 + String.length s2)%nat.
Proof.
  induction s1 as [|c s1 IH]; [reflexivity|].
  change (S (String.length (s1 +:+ s2)) = S (String.length s1 + String.length s2)).
  now rewrite IH.
Qed.

Lemma is_today_spec (v : json) : is_today v = true <-> v = JStr "today".
Proof.
  destruct v; cbn; try (split; [discriminate | intros [=]]).
  rewrite String.eqb_eq. split; [now intros -> | now intros [= ->]].
Qed.

Lemma assoc_set_same k v fs : assoc k (assoc_set k v fs) = Some v.
Proof.
  induction fs as [|[k' v'] fs IH]; cbn.
  - now rewrite String.eqb_refl.
  - destruct (String.eqb_spec k k') as [->|Hne]; cbn.
    + now rewrite String.eqb_refl.
    + now rewrite (proj2 (String.eqb_neq k k') Hne).
Qed.

Lemma assoc_set_other k k' v fs : k <> k' -> assoc k' (assoc_set k v fs) = assoc k' fs.
Proof.
  intros Hne. induction fs as [|[k0 v0] fs IH]; cbn.
  - now rewrite (proj2 (String.eqb_neq k' k)) by congruence.
  - destruct (String.eqb_spec k k0) as [<-|Hne0]; cbn.
    + now rewrite (proj2 (String.eqb_neq k' k)) by congruence.
    + now rewrite IH.
Qed.

(** Only a [dict] answers a subscript by a string. *)
Lemma getitem_str_inv info k v :
  getitem info (JStr k) = Return v -> exists fs, info = JObj fs /\ assoc k fs = Some v.
Proof.
  destruct info as [| | | | | |fs]; cbn; try discriminate.
  destruct (assoc k fs) as [x|] eqn:E; [|discriminate].
  intros [= ->]. now exists fs.
Qed.

(** The interpreter on a reply that parses and holds both fields. *)
Lemma process_user_query_fields w query reply info d location :
  generate_content w (query_prompt query) = Return reply ->
  json_loads w reply = Return info ->
  getitem info (JStr "date") = Return d ->
  getitem info (JStr "location") = Return location ->
  process_user_query w query =
    Return (location, if is_today d then JStr (strftime (now_query w)) else d).
Proof.
  intros Hgen Hload Hd Hl. unfold process_user_query.
  rewrite Hgen, bind_Return, Hload, bind_Return, Hd, bind_Return.
  destruct (is_today d).
  - destruct (getitem_str_inv _ _ _ Hl) as (fs & -> & Hfs).
    cbn [set_date getitem].
    rewrite (assoc_set_other "date" "location") by (intros [=]).
    rewrite Hfs, bind_Return.
    now rewrite assoc_set_same.
  - now rewrite Hl, bind_Return, Hd.
Qed.

(** C3: when the date field of the parsed reply is the string "today", the
    interpreter returns the current date written as YYYY-MM-DD (ten
    characters that read back as that date); any other date is returned as it
    is. *)
Theorem today_is_resolved (w : World) (query reply : string) (info d location : json) :
  generate_content w (query_prompt query) = Return reply ->
  json_loads w reply = Return info ->
  getitem info (JStr "date") = Return d ->
  getitem info (JStr "location") = Return location ->
  (d = JStr "today" ->
     process_user_query w query = Return (location, JStr (strftime (now_query w)))) /\
  (d <> JStr "today" -> process_user_query w query = Return (location, d)) /\
  (valid_date (now_query w) = true -> 1000 <= year (now_query w) ->
     strptime (JStr (strftime (now_query w))) = Return (now_query w) /\
     String.length (strftime (now_query w)) = 10%nat).
Proof.
  intros Hgen Hload Hd Hl.
  pose proof (process_user_query_fields w query reply info d location Hgen Hload Hd Hl) as H.
  split; [|split].
  - intros Ht. now rewrite (proj2 (is_today_spec d) Ht) in H.
  - intros Hn. destruct (is_today d) eqn:E; [|exact H].
    apply is_today_spec in E. contradiction.
  - intros Hv Hy. split; [now apply strptime_strftime|].
    destruct (now_query w) as [y m dd]. unfold valid_date in Hv. cbn [year month day] in *.
    rewrite !andb_true_iff, !Z.leb_le in Hv. destruct Hv as [[[[[Hy1 Hy2] Hm1] Hm2] Hd1] Hd2].
    pose proof (days_in_month_le y m) as Hle.
    destruct (year_digits y) as (a & b & c & e & Hpad & _ & _); [lia|].
    unfold strftime. cbn [year month day]. rewrite Hpad.
    assert (Hlen2 : forall n, 1 <= n <= 31 -> String.length (pad 2 (str_of_Z n)) = 2%nat).
    { intros n Hn.
      assert (Hall : forallb (fun j => (String.length (pad 2 (str_of_Z (Z.of_nat j))) =? 2)%nat)
                       (seq 1 31) = true) by (vm_compute; reflexivity).
      rewrite forallb_forall in Hall.
      specialize (Hall (Z.to_nat n) ltac:(apply in_seq; lia)).
      rewrite Z2Nat.id in Hall by lia. now apply Nat.eqb_eq. }
    rewrite !length_append, !Hlen2 by lia. reflexivity.
Qed.

(** ** Examples on the sample worlds *)

Example munich_turn :
  main sample_env [(munich_world, "What's the weather in Munich on 2024-09-30?");
                   (munich_world, "Exit"); (munich_world, "anyone there?")]
  = ((banner ++ [Asked "You: "; Printed "Chatbot: Sunny."; Asked "You: ";
                 Printed "Goodbye!"])%list, Terminated).
Proof. vm_compute. reflexivity. Qed.

(** ** The lines a turn can print *)

Lemma M4_not_M1 w e : M4 w e <> M1.
Proof. unfold M4, M1. cbv [String.append]. discriminate. Qed.



Lemma turn_of_process env w line s : process env w line = Return s -> turn env w line = s.
Proof. unfold turn. now intros ->. Qed.

Lemma turn_of_raise env w line e : process env w line = Raise e -> turn env w line = M4 w e.
Proof. unfold turn. now intros ->. Qed.

(** C4: in a turn where the interpreter returns a location and a date, the
    geocoder is called and returns coordinates, and the forecast adapter is
    called and returns a day record, the composer is called on that record,
    and with the text it returns the turn prints the report: the line
    "Chatbot: " followed by the text, from the branch of line 177. *)
Theorem success_prints_report (env : environ) (w : World) (line : string)
    (location date lat lon : json) (wd : DayForecast) :
  In (Interpreted (Return (location, date))) (stage_log env w line) ->
  In (Geocoded location (Return (lat, lon))) (stage_log env w line) ->
  In (Forecast lat lon date (Return (Some wd))) (stage_log env w line) ->
  stage_log env w line =
    [ Interpreted (Return (location, date)); Geocoded location (Return (lat, lon));
      Forecast lat lon date (Return (Some wd));
      Composed wd location (generate_response w wd location) ] /\
  (forall response, generate_response w wd location = Return response ->
     turn env w line = "Chatbot: " +:+ response /\
     (lower line <> "exit" ->
      step env w line = ([Printed ("Chatbot: " +:+ response)], Reading))).
Proof.
  intros Hi _ Hf.
  destruct (log_forecast env w line lat lon date _ Hf) as (l & Hq & Ht & Hg & Hc & Hw).
  assert (Hl : l = location).
  { unfold stage_log in Hi. rewrite Hq, Ht, Hg, Hc, <- Hw in Hi. cbn [In] in Hi.
    destruct Hi as [H|[H|[H|[H|[]]]]]; try discriminate H.
    now injection H as ->. }
  subst l. split.
  - unfold stage_log. now rewrite Hq, Ht, Hg, Hc, <- Hw.
  - intros response Hr.
    assert (Hturn : turn env w line = "Chatbot: " +:+ response).
    { apply turn_of_process. unfold process.
      rewrite Hq, bind_Return, Ht, Hg, bind_Return, Hc, <- Hw, bind_Return, Hr.
      reflexivity. }
    split; [exact Hturn|].
    intros Hx. unfold step. now rewrite (proj2 (is_exit_false line) Hx), Hturn.
Qed.

Lemma success_prints_report_witness :
  turn sample_env munich_world "What's the weather in Munich on 2024-09-30?"
    = "Chatbot: Sunny.".
Proof.
  apply (success_prints_report sample_env munich_world
           "What's the weather in Munich on 2024-09-30?"
           (JStr "Munich") (JStr "2024-09-30") (JInt 48) (JInt 11)
           (mkDayForecast (JStr "2024-09-30") (JInt 4) (JInt 4) (JInt 4) (JInt 4) (JInt 4)
              (JInt 4) (JInt 4) (JInt 4) (JInt 4) (JInt 4) (JInt 4) (JInt 4))).
  - vm_compute. left. reflexivity.
  - vm_compute. right. left. reflexivity.
  - vm_compute. right. right. left. reflexivity.
  - vm_compute. reflexivity.
Defined.

(** Two turns that stop at a presence test, so that the forecast adapter is
    not called: an empty location stops at line 171, and a place on the
    equator, of latitude 0.0, stops at line 173 as if the geocoder had found
    nothing. *)
Example empty_location_prints_M1 :
  stage_log sample_env empty_location_world "Weather on 2024-09-30?"
    = [Interpreted (Return (JStr "", JStr "2024-09-30"))] /\
  turn sample_env empty_location_world "Weather on 2024-09-30?" = M1.
Proof. split; vm_compute; reflexivity. Qed.

Example equator_prints_M2 :
  stage_log sample_env equator_world "Weather in Quito on 2024-09-30?"
    = [ Interpreted (Return (JStr "Quito", JStr "2024-09-30"));
        Geocoded (JStr "Quito") (Return (JFloat (S754_zero false), JInt (-78))) ] /\
  turn sample_env equator_world "Weather in Quito on 2024-09-30?"
    = "Chatbot: I'm sorry, I couldn't find the coordinates for Quito.".
Proof. split; vm_compute; reflexivity. Qed.

(** ** Credentials *)

Lemma main_started env inputs v :
  env !! "GEMINI_API_KEY" = Some v ->
  main env inputs = ((banner ++ (loop env inputs).1)%list, (loop env inputs).2).
Proof.
  intros H. unfold main, getenv. rewrite H. now destruct (loop env inputs).
Qed.

(** C5 (amended): only the text-generation credential is read when the
    process starts, and without it the process stops there, before the
    banner and before any input.  With it the process starts and never stops
    on an exception, whatever the other two are.  The geocoding and forecast
    credentials are read inside their adapters at every call; without one of
    them the adapter raises [KeyError], and the turn that reaches it prints
    M4. *)
Theorem credentials_read (env : environ) (inputs : list (World * string)) :
  (env !! "GEMINI_API_KEY" = None ->
     main env inputs = ([], Failed (KeyError (JStr "GEMINI_API_KEY")))) /\
  (is_Some (env !! "GEMINI_API_KEY") ->
     main env inputs = ((banner ++ (loop env inputs).1)%list, (loop env inputs).2) /\
     forall e, (main env inputs).2 <> Failed e) /\
  (env !! "OPENCAGE_API_KEY" = None ->
     forall w location,
       geocode_location env w location = Raise (KeyError (JStr "OPENCAGE_API_KEY")) /\
       forall line date,
         process_user_query w line = Return (location, date) ->
         truthy location && truthy date = true ->
         turn env w line = M4 w (KeyError (JStr "OPENCAGE_API_KEY"))) /\
  (env !! "METEOBLUE_API_KEY" = None ->
     forall w lat lon date,
       get_weather_data env w lat lon date = Raise (KeyError (JStr "METEOBLUE_API_KEY")) /\
       forall line location,
         process_user_query w line = Return (location, date) ->
         truthy location && truthy date = true ->
         geocode_location env w location = Return (lat, lon) ->
         truthy lat && truthy lon = true ->
         turn env w line = M4 w (KeyError (JStr "METEOBLUE_API_KEY"))).
Proof.
  split; [|split; [|split]].
  - intros H. unfold main, getenv. now rewrite H.
  - intros [v Hv]. rewrite (main_started env inputs v Hv). split; [reflexivity|].
    intros e. apply loop_never_fails.
  - intros H w location.
    assert (Hg : geocode_location env w location = Raise (KeyError (JStr "OPENCAGE_API_KEY")))
      by (unfold geocode_location, getenv; now rewrite H).
    split; [exact Hg|]. intros line date Hq Ht.
    apply turn_of_raise. unfold process. now rewrite Hq, bind_Return, Ht, Hg.
  - intros H w lat lon date.
    assert (Hw : get_weather_data env w lat lon date
                 = Raise (KeyError (JStr "METEOBLUE_API_KEY")))
      by (unfold get_weather_data, getenv; now rewrite H).
    split; [exact Hw|]. intros line location Hq Ht Hg Hc.
    apply turn_of_raise. unfold process.
    now rewrite Hq, bind_Return, Ht, Hg, bind_Return, Hc, Hw.
Qed.

(** C5, as stated, fails: with the geocoding and forecast credentials
    absent the process starts, prints its banner, reads a question and
    answers it with M4, and is back at its prompt. *)
Lemma starts_without_two_credentials :
  gemini_only_env !! "OPENCAGE_API_KEY" = None /\
  gemini_only_env !! "METEOBLUE_API_KEY" = None /\
  main gemini_only_env [(munich_world, "What's the weather in Munich on 2024-09-30?")]
    = ((banner ++
        [Asked "You: ";
         Printed "Chatbot: I'm sorry, I encountered an error: 'OPENCAGE_API_KEY'";
         Asked "You: "])%list, Reading).
Proof. repeat split; vm_compute; reflexivity. Qed.

(** ** Failures of the interpreter *)

Lemma process_user_query_raises w line :
  (forall e, generate_content w (query_prompt line) = Raise e ->
     process_user_query w line = Raise e) /\
  (forall reply e, generate_content w (query_prompt line) = Return reply ->
     json_loads w reply = Raise e -> process_user_query w line = Raise e) /\
  (forall reply info e, generate_content w (query_prompt line) = Return reply ->
     json_loads w reply = Return info -> getitem info (JStr "date") = Raise e ->
     process_user_query w line = Raise e) /\
  (forall reply info d e, generate_content w (query_prompt line) = Return reply ->
     json_loads w reply = Return info -> getitem info (JStr "date") = Return d ->
     getitem info (JStr "location") = Raise e ->
     process_user_query w line = Raise e).
Proof.
  unfold process_user_query. repeat split.
  - now intros e ->.
  - intros reply e Hg H. now rewrite Hg, bind_Return, H.
  - intros reply info e Hg Hj H. now rewrite Hg, bind_Return, Hj, bind_Return, H.
  - intros reply info d e Hg Hj Hd Hl.
    rewrite Hg, bind_Return, Hj, bind_Return, Hd, bind_Return.
    destruct (is_today d); [|now rewrite Hl].
    destruct (getitem_str_inv _ _ _ Hd) as (fs & -> & Hfs).
    cbn [set_date getitem] in *.
    rewrite (assoc_set_other "date" "location") by (intros [=]).
    destruct (assoc "location" fs); [discriminate Hl|].
    rewrite bind_Raise. now injection Hl as ->.
Qed.

(** C6 (amended): when the reply of the model cannot be parsed, or lacks
    the date or the location, the interpreter raises and the turn prints M4
    with the description of the error, not M1.  M1 is what the turn prints
    when the reply parses and holds both fields and one of the two is not a
    true value (empty or null). *)
Theorem interpreter_failures (env : environ) (w : World) (line : string) :
  (forall e, process_user_query w line = Raise e ->
     turn env w line = M4 w e /\ turn env w line <> M1) /\
  (forall reply e, generate_content w (query_prompt line) = Return reply ->
     json_loads w reply = Raise e -> turn env w line = M4 w e) /\
  (forall reply info e, generate_content w (query_prompt line) = Return reply ->
     json_loads w reply = Return info -> getitem info (JStr "date") = Raise e ->
     turn env w line = M4 w e) /\
  (forall reply info d e, generate_content w (query_prompt line) = Return reply ->
     json_loads w reply = Return info -> getitem info (JStr "date") = Return d ->
     getitem info (JStr "location") = Raise e ->
     turn env w line = M4 w e) /\
  (forall location date, process_user_query w line = Return (location, date) ->
     truthy location && truthy date = false -> turn env w line = M1).
Proof.
  destruct (process_user_query_raises w line) as (_ & H2 & H3 & H4).
  assert (Hraise : forall e, process_user_query w line = Raise e -> turn env w line = M4 w e).
  { intros e He. apply turn_of_raise. unfold process. now rewrite He. }
  split; [|split; [|split; [|split]]].
  - intros e He. rewrite (Hraise e He). split; [reflexivity | apply M4_not_M1].
  - intros reply e Hg Hl. eapply Hraise, H2; eassumption.
  - intros reply info e Hg Hl Hd. eapply Hraise, H3; eassumption.
  - intros reply info d e Hg Hl Hd Hloc. eapply Hraise, H4; eassumption.
  - intros location date Hq Ht. apply turn_of_process. unfold process.
    now rewrite Hq, bind_Return, Ht.
Qed.

(** C6, as stated, fails: a reply that is not JSON, and a reply without
    date, both end the turn with M4, not with M1. *)
Lemma parse_failure_prints_M4 :
  generate_content malformed_world (query_prompt "Weather in Munich?")
    = Return "Sorry, I cannot help with that." /\
  json_loads malformed_world "Sorry, I cannot help with that."
    = Raise (ServiceError "Expecting value: line 1 column 1 (char 0)") /\
  turn sample_env malformed_world "Weather in Munich?"
    = "Chatbot: I'm sorry, I encountered an error: Expecting value: line 1 column 1 (char 0)" /\
  turn sample_env malformed_world "Weather in Munich?" <> M1 /\
  json_loads missing_date_world ("{" +:+ quoted "location" +:+ ": " +:+ quoted "Munich" +:+ "}")
    = Return (JObj [("location", JStr "Munich")]) /\
  turn sample_env missing_date_world "Weather in Munich?"
    = "Chatbot: I'm sorry, I encountered an error: 'date'" /\
  turn sample_env missing_date_world "Weather in Munich?" <> M1.
Proof. repeat split; try (vm_compute; reflexivity); vm_compute; discriminate. Qed.

(** ** Geocoder adapter *)

(** C7 (amended): on a geocoding document whose results are empty the
    adapter returns the pair (None, None).  Any other pair it returns is made
    of the latitude and the longitude of the first result, as the document
    gives them; so both are present whenever the document gives both, and
    one is absent alone only when the document itself has a null there. *)
Theorem geocoder_pair (env : environ) (w : World) (location : json) (key : string)
    (data results : json) :
  env !! "OPENCAGE_API_KEY" = Some key ->
  requests_get_json w (geocode_url w location key) = Return data ->
  getitem data (JStr "results") = Return results ->
  (results = JArr [] -> geocode_location env w location = Return (JNull, JNull)) /\
  (truthy results = false -> geocode_location env w location = Return (JNull, JNull)) /\
  (forall lat lon, geocode_location env w location = Return (lat, lon) ->
     (truthy results = false /\ lat = JNull /\ lon = JNull) \/
     (truthy results = true /\
      exists first geometry,
        getitem results (JInt 0) = Return first /\
        getitem first (JStr "geometry") = Return geometry /\
        getitem geometry (JStr "lat") = Return lat /\
        getitem geometry (JStr "lng") = Return lon)).
Proof.
  intros Henv Hhttp Hres.
  assert (Hempty : truthy results = false ->
                   geocode_location env w location = Return (JNull, JNull)).
  { intros Ht. unfold geocode_location, getenv.
    now rewrite Henv, bind_Return, Hhttp, bind_Return, Hres, bind_Return, Ht. }
  split; [intros ->; now apply Hempty|]. split; [exact Hempty|].
  intros lat lon. destruct (truthy results) eqn:Ht.
  - unfold geocode_location, getenv.
    rewrite Henv, bind_Return, Hhttp, bind_Return, Hres, bind_Return, Ht.
    destruct (getitem results (JInt 0)) as [first|] eqn:H0; [|discriminate].
    rewrite bind_Return.
    destruct (getitem first (JStr "geometry")) as [geometry|] eqn:H1; [|discriminate].
    rewrite bind_Return.
    destruct (getitem geometry (JStr "lat")) as [lat'|] eqn:H2; [|discriminate].
    rewrite bind_Return.
    destruct (getitem geometry (JStr "lng")) as [lon'|] eqn:H3; [|discriminate].
    rewrite bind_Return. intros [= -> ->]. right. split; [reflexivity|].
    exists first, geometry. auto.
  - rewrite Hempty by reflexivity. intros [= <- <-]. now left.
Qed.

Lemma geocoder_pair_witness :
  geocode_location sample_env atlantis_world (JStr "Atlantis") = Return (JNull, JNull).
Proof.
  apply (geocoder_pair sample_env atlantis_world (JStr "Atlantis") "o"
           (JObj [("results", JArr [])]) (JArr []));
    vm_compute; reflexivity.
Defined.

(** C7, as stated, fails: on a document whose first result has a null
    latitude the adapter returns a pair with the latitude absent and the
    longitude present. *)
Lemma null_latitude_gives_partial_pair :
  requests_get_json null_lat_world (geocode_url null_lat_world (JStr "Munich") "o")
    = geo_of JNull (JInt 11) /\
  geocode_location sample_env null_lat_world (JStr "Munich") = Return (JNull, JInt 11) /\
  JInt 11 <> JNull.
Proof. repeat split; try (vm_compute; reflexivity); discriminate. Qed.

(** ** Dates that cannot be read *)




(** ** Witnesses *)

Lemma forecast_window_witness :
  exists r,
    get_weather_data sample_env munich_world (JInt 48) (JInt 11) (JStr "2024-09-30")
      = Return (Some r) /\
    project_day sample_forecast 3 = Some r /\
    df_date r = JStr "2024-09-30".
Proof.
  destruct (forecast_window sample_env munich_world (JInt 48) (JInt 11) (JStr "2024-09-30")
              "m" sample_forecast (mkdate 2024 9 30)
              eq_refl eq_refl eq_refl) as (_ & _ & _ & Hok).
  destruct (Hok eq_refl) as [_ Hin].
  destruct (Hin ltac:(vm_compute; split; [discriminate | reflexivity])) as (r & Hr & Hp).
  exists r. split; [exact Hr|]. split; [exact Hp|].
  vm_compute in Hp. now injection Hp as <-.
Defined.

Lemma today_is_resolved_witness :
  process_user_query today_world "Weather in Munich?" = Return (JStr "Munich", JStr "2024-09-27").
Proof.
  apply (today_is_resolved today_world "Weather in Munich?" (reply_text "Munich" "today")
           (JObj [("location", JStr "Munich"); ("date", JStr "today")])
           (JStr "today") (JStr "Munich") eq_refl eq_refl eq_refl eq_refl).
  reflexivity.
Defined.


(** A place the geocoder does not find: M2 with the name of the place, and
    no call of the forecast adapter. *)
Example atlantis_prints_M2 :
  stage_log sample_env atlantis_world "Weather in Atlantis on 2024-09-30?"
    = [ Interpreted (Return (JStr "Atlantis", JStr "2024-09-30"));
        Geocoded (JStr "Atlantis") (Return (JNull, JNull)) ] /\
  turn sample_env atlantis_world "Weather in Atlantis on 2024-09-30?"
    = "Chatbot: I'm sorry, I couldn't find the coordinates for Atlantis.".
Proof. split; vm_compute; reflexivity. Qed.

(** * Further properties of the code *)

(** ** The branches of a turn *)

(** A turn whose geocoder answer fails the test of line 173. *)
Lemma presence_test_fails env w line location date lat lon :
  process_user_query w line = Return (location, date) ->
  truthy location && truthy date = true ->
  geocode_location env w location = Return (lat, lon) ->
  truthy lat && truthy lon = false ->
  turn env w line = M2 w location /\
  stage_log env w line =
    [Interpreted (Return (location, date)); Geocoded location (Return (lat, lon))].
Proof.
  intros Hq Ht Hg Hc. split.
  - apply turn_of_process. unfold process.
    now rewrite Hq, bind_Return, Ht, Hg, bind_Return, Hc.
  - unfold stage_log. now rewrite Hq, Ht, Hg, Hc.
Qed.

(** X1: when the geocoding service has no result for the place (the
    [results] of its answer are empty), the turn prints M2 with the place as
    the model gave it, and the forecast service is not called. *)
Theorem not_found_prints_M2 (env : environ) (w : World) (line : string)
    (location date : json) (key : string) (data results : json) :
  process_user_query w line = Return (location, date) ->
  truthy location && truthy date = true ->
  env !! "OPENCAGE_API_KEY" = Some key ->
  requests_get_json w (geocode_url w location key) = Return data ->
  getitem data (JStr "results") = Return results ->
  truthy results = false ->
  turn env w line
    = "Chatbot: I'm sorry, I couldn't find the coordinates for " +:+ py_str w location +:+ "." /\
  stage_log env w line =
    [Interpreted (Return (location, date)); Geocoded location (Return (JNull, JNull))] /\
  (forall lat lon d r, ~ In (Forecast lat lon d r) (stage_log env w line)).
Proof.
  intros Hq Ht Henv Hhttp Hres Hempty.
  assert (Hg : geocode_location env w location = Return (JNull, JNull)).
  { unfold geocode_location, getenv.
    now rewrite Henv, bind_Return, Hhttp, bind_Return, Hres, bind_Return, Hempty. }
  destruct (presence_test_fails env w line location date JNull JNull Hq Ht Hg eq_refl)
    as [Hturn Hlog].
  split; [exact Hturn|]. split; [exact Hlog|].
  intros lat lon d r. rewrite Hlog. cbn [In]. intros [H|[H|[]]]; discriminate H.
Qed.

Lemma not_found_prints_M2_witness :
  turn sample_env atlantis_world "Weather in Atlantis on 2024-09-30?"
    = "Chatbot: I'm sorry, I couldn't find the coordinates for Atlantis.".
Proof.
  apply (not_found_prints_M2 sample_env atlantis_world "Weather in Atlantis on 2024-09-30?"
           (JStr "Atlantis") (JStr "2024-09-30") "o" (JObj [("results", JArr [])]) (JArr []));
    vm_compute; reflexivity.
Defined.

(** X2: when the forecast adapter returns the absent result, the turn prints
    M3 with the place and the date as the model gave them, and the composer is
    not called. *)
Theorem out_of_window_prints_M3 (env : environ) (w : World) (line : string)
    (lat lon date : json) :
  In (Forecast lat lon date (Return None)) (stage_log env w line) ->
  exists location,
    process_user_query w line = Return (location, date) /\
    turn env w line
      = "Chatbot: I'm sorry, I couldn't get weather data for " +:+ py_str w location
          +:+ " on " +:+ py_str w date +:+ ". The date might be out of range." /\
    (forall wd l r, ~ In (Composed wd l r) (stage_log env w line)).
Proof.
  intros Hf.
  destruct (log_forecast env w line lat lon date _ Hf) as (l & Hq & Ht & Hg & Hc & Hw).
  exists l. split; [exact Hq|]. split.
  - apply turn_of_process. unfold process.
    now rewrite Hq, bind_Return, Ht, Hg, bind_Return, Hc, <- Hw, bind_Return.
  - intros wd l' r. unfold stage_log. rewrite Hq, Ht, Hg, Hc, <- Hw. cbn [In].
    intros [H|[H|[H|[]]]]; discriminate H.
Qed.

Lemma out_of_window_prints_M3_witness :
  exists location,
    process_user_query far_date_world "Weather in Munich on 2024-10-10?"
      = Return (location, JStr "2024-10-10") /\
    turn sample_env far_date_world "Weather in Munich on 2024-10-10?"
      = "Chatbot: I'm sorry, I couldn't get weather data for " +:+ sample_str location
          +:+ " on 2024-10-10. The date might be out of range.".
Proof.
  destruct (out_of_window_prints_M3 sample_env far_date_world
              "Weather in Munich on 2024-10-10?" (JInt 48) (JInt 11) (JStr "2024-10-10"))
    as (location & Hq & Hturn & _).
  - vm_compute. right. right. left. reflexivity.
  - exists location. split; [exact Hq | exact Hturn].
Defined.

Lemma zero_number_falsy v : zero_number v = true -> truthy v = false.
Proof.
  destruct v as [| |z|[]| | |]; cbn; try discriminate; try reflexivity.
  now intros ->.
Qed.

(** X3: a latitude or a longitude that is the number zero (0, 0.0 or -0.0:
    a place on the equator or on the prime meridian) fails the test of line
    173: the turn prints M2 as if the place had not been found, and the
    forecast service is not called. *)
Theorem zero_coordinate_prints_M2 (env : environ) (w : World) (line : string)
    (location date lat lon : json) :
  process_user_query w line = Return (location, date) ->
  truthy location && truthy date = true ->
  geocode_location env w location = Return (lat, lon) ->
  zero_number lat || zero_number lon = true ->
  turn env w line
    = "Chatbot: I'm sorry, I couldn't find the coordinates for " +:+ py_str w location +:+ "." /\
  (forall lat' lon' d r, ~ In (Forecast lat' lon' d r) (stage_log env w line)).
Proof.
  intros Hq Ht Hg Hz.
  assert (Hc : truthy lat && truthy lon = false).
  { apply orb_prop in Hz as [Hz|Hz]; apply zero_number_falsy in Hz; rewrite Hz;
      [reflexivity | apply andb_false_r]. }
  destruct (presence_test_fails env w line location date lat lon Hq Ht Hg Hc)
    as [Hturn Hlog].
  split; [exact Hturn|].
  intros lat' lon' d r. rewrite Hlog. cbn [In]. intros [H|[H|[]]]; discriminate H.
Qed.

Lemma zero_coordinate_prints_M2_witness :
  turn sample_env equator_world "Weather in Quito on 2024-09-30?"
    = "Chatbot: I'm sorry, I couldn't find the coordinates for Quito.".
Proof.
  apply (zero_coordinate_prints_M2 sample_env equator_world "Weather in Quito on 2024-09-30?"
           (JStr "Quito") (JStr "2024-09-30") (JFloat (S754_zero false)) (JInt (-78)));
    vm_compute; reflexivity.
Defined.

Lemma prefix_append (p s : string) : String.prefix p (p +:+ s) = true.
Proof.
  induction p as [|c p IH]; [now destruct s|].
  change (String.prefix (String c p) (String c (p +:+ s)) = true).
  cbn [String.prefix]. destruct (ascii_dec c c) as [_|Hn]; [exact IH | now destruct Hn].
Qed.

Lemma M4_prefix w e : String.prefix "Chatbot: " (M4 w e) = true.
Proof.
  apply (prefix_append "Chatbot: "
           ("I'm sorry, I encountered an error: " +:+ exn_str (py_repr w) e)).
Qed.

(** X4: the line of a turn is decided by the calls the turn made, and there
    are five cases.  A call raised: it is the last call, the calls before it
    returned, and the line is M4 with its exception.  Only the interpreter
    was called, and the place or the date it returned fails the test of line
    171: M1.  The geocoder was called next and its latitude or longitude
    fails the test of line 173: M2 with the place.  The forecast adapter was
    called next and returned the absent result: M3 with the place and the
    date.  The composer was called last and returned a text: the line is
    "Chatbot: " followed by that text.  A turn makes between one and four
    calls, and its line starts with "Chatbot: ". *)
Theorem turn_line_by_calls (env : environ) (w : World) (line : string) :
  ((exists calls ev e,
      stage_log env w line = (calls ++ [ev])%list /\
      Forall (fun c => raised c = None) calls /\
      raised ev = Some e /\
      turn env w line
        = "Chatbot: I'm sorry, I encountered an error: " +:+ exn_str (py_repr w) e) \/
   (exists location date,
      stage_log env w line = [Interpreted (Return (location, date))] /\
      truthy location && truthy date = false /\
      turn env w line = M1) \/
   (exists location date lat lon,
      stage_log env w line =
        [Interpreted (Return (location, date)); Geocoded location (Return (lat, lon))] /\
      truthy location && truthy date = true /\
      truthy lat && truthy lon = false /\
      turn env w line = M2 w location) \/
   (exists location date lat lon,
      stage_log env w line =
        [Interpreted (Return (location, date)); Geocoded location (Return (lat, lon));
         Forecast lat lon date (Return None)] /\
      truthy location && truthy date = true /\
      truthy lat && truthy lon = true /\
      turn env w line = M3 w location date) \/
   (exists location date lat lon wd response,
      stage_log env w line =
        [Interpreted (Return (location, date)); Geocoded location (Return (lat, lon));
         Forecast lat lon date (Return (Some wd)); Composed wd location (Return response)] /\
      truthy location && truthy date = true /\
      truthy lat && truthy lon = true /\
      turn env w line = "Chatbot: " +:+ response)) /\
  (1 <= length (stage_log env w line) <= 4)%nat /\
  String.prefix "Chatbot: " (turn env w line) = true.
Proof.
  split; [|split].
  - unfold turn, process, stage_log.
    destruct (process_user_query w line) as [[location date]|e];
      rewrite ?bind_Return, ?bind_Raise;
      [|left; exists [], (Interpreted (Raise e)), e; repeat split; constructor].
    destruct (truthy location && truthy date) eqn:Ht;
      [|right; left; now exists location, date].
    destruct (geocode_location env w location) as [[lat lon]|e];
      rewrite ?bind_Return, ?bind_Raise;
      [|left; exists [Interpreted (Return (location, date))],
                     (Geocoded location (Raise e)), e;
        repeat split; repeat constructor].
    destruct (truthy lat && truthy lon) eqn:Hc;
      [|right; right; left; now exists location, date, lat, lon].
    destruct (get_weather_data env w lat lon date) as [[wd|]|e];
      rewrite ?bind_Return, ?bind_Raise;
      [| right; right; right; left; now exists location, date, lat, lon
       | left; exists [Interpreted (Return (location, date));
                       Geocoded location (Return (lat, lon))],
                      (Forecast lat lon date (Raise e)), e;
         repeat split; repeat constructor].
    destruct (generate_response w wd location) as [response|e];
      rewrite ?bind_Return, ?bind_Raise;
      [right; right; right; right; now exists location, date, lat, lon, wd, response|].
    left. exists [Interpreted (Return (location, date));
                  Geocoded location (Return (lat, lon));
                  Forecast lat lon date (Return (Some wd))],
                 (Composed wd location (Raise e)), e.
    repeat split; repeat constructor.
  - unfold stage_log.
    destruct (process_user_query w line) as [[location date]|e]; [|cbn; lia].
    destruct (truthy location && truthy date); [|cbn; lia].
    destruct (geocode_location env w location) as [[lat lon]|e]; [|cbn; lia].
    destruct (truthy lat && truthy lon); [|cbn; lia].
    destruct (get_weather_data env w lat lon date) as [[wd|]|e]; cbn; lia.
  - unfold turn, process.
    destruct (process_user_query w line) as [[location date]|e];
      rewrite ?bind_Return, ?bind_Raise; [|apply M4_prefix].
    destruct (truthy location && truthy date); [|reflexivity].
    destruct (geocode_location env w location) as [[lat lon]|e];
      rewrite ?bind_Return, ?bind_Raise; [|apply M4_prefix].
    destruct (truthy lat && truthy lon);
      [|apply (prefix_append "Chatbot: "
                 ("I'm sorry, I couldn't find the coordinates for "
                    +:+ py_str w location +:+ "."))].
    destruct (get_weather_data env w lat lon date) as [[wd|]|e];
      rewrite ?bind_Return, ?bind_Raise;
      [| apply (prefix_append "Chatbot: "
                  ("I'm sorry, I couldn't get weather data for " +:+ py_str w location
                     +:+ " on " +:+ py_str w date +:+ ". The date might be out of range."))
       | apply M4_prefix].
    destruct (generate_response w wd location) as [response|e];
      rewrite ?bind_Return, ?bind_Raise; [apply prefix_append | apply M4_prefix].
Qed.

(** ** The transcript of the loop *)

Lemma loop_answers env pre rest :
  Forall (fun i => lower i.2 <> "exit") pre ->
  loop env (pre ++ rest) = ((answers env pre ++ (loop env rest).1)%list, (loop env rest).2).
Proof.
  induction 1 as [|[w line] pre Hx _ IH]; [cbn [app]; now destruct (loop env rest)|].
  cbn [app]. rewrite (loop_turn env w line (pre ++ rest) Hx), IH. reflexivity.
Qed.

(** X5: the transcript of the loop.  For lines none of which is the exit
    word, the loop shows, for each line in turn, its prompt and the line of
    the turn, and then its prompt again, waiting.  When the exit word comes
    next it shows its prompt and the farewell and stops, and whatever is typed
    after that changes nothing. *)
Theorem loop_transcript (env : environ) (pre : list (World * string)) :
  Forall (fun i => lower i.2 <> "exit") pre ->
  loop env pre = ((answers env pre ++ [Asked "You: "])%list, Reading) /\
  (forall w line post, lower line = "exit" ->
     loop env (pre ++ (w, line) :: post)
       = ((answers env pre ++ [Asked "You: "; Printed "Goodbye!"])%list, Terminated)) /\
  length (answers env pre) = (2 * length pre)%nat.
Proof.
  intros Hpre. split; [|split].
  - rewrite <- (app_nil_r pre) at 1. now rewrite (loop_answers env pre [] Hpre).
  - intros w line post Hx.
    now rewrite (loop_answers env pre _ Hpre), (loop_exit env w line post Hx).
  - clear Hpre. induction pre as [|i pre IH]; [reflexivity|].
    unfold answers in *. cbn [flat_map app length]. rewrite IH. lia.
Qed.

Lemma loop_transcript_witness :
  loop sample_env [(munich_world, "What's the weather in Munich on 2024-09-30?");
                   (atlantis_world, "And in Atlantis?")]
  = ([ Asked "You: "; Printed "Chatbot: Sunny."; Asked "You: ";
       Printed "Chatbot: I'm sorry, I couldn't find the coordinates for Atlantis.";
       Asked "You: " ], Reading).
Proof.
  apply (loop_transcript sample_env
           [(munich_world, "What's the weather in Munich on 2024-09-30?");
            (atlantis_world, "And in Atlantis?")]).
  repeat constructor; vm_compute; discriminate.
Defined.

(** ** Today, and the night in between *)

(** X6: the date written for "today" is day 0 of the forecast: when the
    clock shows the same day in the interpreter and in the forecast adapter,
    the adapter returns the first entry of each day array.  When midnight
    passes between the two readings, the date is yesterday's and the adapter
    returns the absent result. *)
Theorem today_is_day_zero (env : environ) (w : World) (lat lon : json) (key : string)
    (data : json) :
  env !! "METEOBLUE_API_KEY" = Some key ->
  requests_get_json w (weather_url w lat lon key) = Return data ->
  valid_date (now_query w) = true ->
  1000 <= year (now_query w) ->
  (now_forecast w = now_query w -> provider_ok data = true ->
     exists r,
       get_weather_data env w lat lon (JStr (strftime (now_query w))) = Return (Some r) /\
       project_day data 0 = Some r) /\
  (toordinal (now_forecast w) = toordinal (now_query w) + 1 ->
     get_weather_data env w lat lon (JStr (strftime (now_query w))) = Return None).
Proof.
  intros Henv Hhttp Hv Hy.
  pose proof (strptime_strftime (now_query w) Hv Hy) as Hread. split.
  - intros Hsame Hok.
    destruct (forecast_in_window env w lat lon _ key data (now_query w) Henv Hhttp Hread Hok)
      as (r & Hr & Hp).
    + unfold days_between. rewrite Hsame. lia.
    + exists r. split; [exact Hr|].
      unfold days_between in Hp. rewrite Hsame in Hp.
      now replace (toordinal (now_query w) - toordinal (now_query w)) with 0 in Hp by lia.
  - intros Hnext.
    apply (forecast_out_of_window env w lat lon _ key data (now_query w) Henv Hhttp Hread).
    unfold days_between. lia.
Qed.

Lemma today_is_day_zero_witness :
  exists r,
    get_weather_data sample_env today_world (JInt 48) (JInt 11) (JStr "2024-09-27")
      = Return (Some r) /\
    project_day sample_forecast 0 = Some r.
Proof.
  destruct (today_is_day_zero sample_env today_world (JInt 48) (JInt 11) "m" sample_forecast
              eq_refl eq_refl eq_refl ltac:(vm_compute; discriminate)) as [Hsame _].
  exact (Hsame eq_refl eq_refl).
Defined.

(** ** Replies and documents of another shape *)

(** X9: a reply of the model that is JSON but not an object (a list, a
    string, a number, null) makes the interpreter raise [TypeError] at the
    subscript of line 112, and the turn prints M4. *)
Theorem non_object_reply_raises (env : environ) (w : World) (line reply : string)
    (info : json) :
  generate_content w (query_prompt line) = Return reply ->
  json_loads w reply = Return info ->
  (forall fs, info <> JObj fs) ->
  exists msg,
    process_user_query w line = Raise (TypeError msg) /\
    turn env w line = "Chatbot: I'm sorry, I encountered an error: " +:+ msg.
Proof.
  intros Hgen Hload Hobj.
  assert (Hq : exists msg, getitem info (JStr "date") = Raise (TypeError msg)).
  { destruct info; cbn; eauto. now destruct (Hobj fields). }
  destruct Hq as [msg Hd]. exists msg.
  assert (Hp : process_user_query w line = Raise (TypeError msg)).
  { unfold process_user_query. now rewrite Hgen, bind_Return, Hload, bind_Return, Hd. }
  split; [exact Hp|].
  unfold turn, process. now rewrite Hp.
Qed.

Lemma non_object_reply_raises_witness :
  exists msg,
    process_user_query list_reply_world "Weather in Munich?" = Raise (TypeError msg) /\
    turn sample_env list_reply_world "Weather in Munich?"
      = "Chatbot: I'm sorry, I encountered an error: " +:+ msg.
Proof.
  apply (non_object_reply_raises sample_env list_reply_world "Weather in Munich?"
           ("[" +:+ quoted "Munich" +:+ ", " +:+ quoted "2024-09-30" +:+ "]")
           (JArr [JStr "Munich"; JStr "2024-09-30"])).
  - vm_compute. reflexivity.
  - vm_compute. reflexivity.
  - intros fs. discriminate.
Defined.

Lemma getitem_head (x : json) (l : list json) :
  getitem (JArr (x :: l)) (JInt 0) = Return x.
Proof. reflexivity. Qed.

(** X10: of the places the geocoding service finds, the geocoder reads the
    first and nothing else: its answer is the latitude and the longitude of
    the first result, whatever results follow. *)
Theorem geocoder_reads_first_result (env : environ) (w : World) (location : json)
    (key : string) (top : list (string * json)) (first : json) (rest : list json) :
  env !! "OPENCAGE_API_KEY" = Some key ->
  requests_get_json w (geocode_url w location key) = Return (JObj top) ->
  assoc "results" top = Some (JArr (first :: rest)) ->
  geocode_location env w location =
    (geometry ← getitem first (JStr "geometry");
     lat ← getitem geometry (JStr "lat");
     lon ← getitem geometry (JStr "lng");
     Return (lat, lon)).
Proof.
  intros Henv Hhttp Hres. unfold geocode_location, getenv.
  rewrite Henv, bind_Return, Hhttp, bind_Return. cbn [getitem]. rewrite Hres, bind_Return.
  cbn [truthy]. now rewrite getitem_head, bind_Return.
Qed.

Lemma geocoder_reads_first_result_witness :
  geocode_location sample_env two_results_world (JStr "Springfield")
    = Return (JInt 39, JInt (-89)).
Proof.
  rewrite (geocoder_reads_first_result sample_env two_results_world (JStr "Springfield") "o"
             [("results",
               JArr [ JObj [("geometry", JObj [("lat", JInt 39); ("lng", JInt (-89))])];
                      JObj [("geometry", JObj [("lat", JInt 42); ("lng", JInt (-72))])] ])]
             (JObj [("geometry", JObj [("lat", JInt 39); ("lng", JInt (-89))])])
             [JObj [("geometry", JObj [("lat", JInt 42); ("lng", JInt (-72))])]]
             eq_refl eq_refl eq_refl).
  reflexivity.
Defined.

(** X11: a geocoding document that lacks a key the geocoder reads makes it
    raise [KeyError] with that key: ["results"] when the document has no
    results at all, ["geometry"], ["lat"] or ["lng"] when the first result
    lacks them. *)
Theorem geocoder_missing_key (env : environ) (w : World) (location : json)
    (key : string) (top : list (string * json)) :
  env !! "OPENCAGE_API_KEY" = Some key ->
  requests_get_json w (geocode_url w location key) = Return (JObj top) ->
  (assoc "results" top = None ->
     geocode_location env w location = Raise (KeyError (JStr "results"))) /\
  (forall first rest,
     assoc "results" top = Some (JArr (JObj first :: rest)) ->
     (assoc "geometry" first = None ->
        geocode_location env w location = Raise (KeyError (JStr "geometry"))) /\
     (forall geometry,
        assoc "geometry" first = Some (JObj geometry) ->
        (assoc "lat" geometry = None ->
           geocode_location env w location = Raise (KeyError (JStr "lat"))) /\
        (forall lat, assoc "lat" geometry = Some lat -> assoc "lng" geometry = None ->
           geocode_location env w location = Raise (KeyError (JStr "lng"))))).
Proof.
  intros Henv Hhttp. split.
  - intros Hres. unfold geocode_location, getenv.
    rewrite Henv, bind_Return, Hhttp, bind_Return. cbn [getitem]. now rewrite Hres.
  - intros first rest Hres.
    assert (Hfirst : geocode_location env w location =
              (geometry ← getitem (JObj first) (JStr "geometry");
               lat ← getitem geometry (JStr "lat");
               lon ← getitem geometry (JStr "lng");
               Return (lat, lon))).
    { unfold geocode_location, getenv.
      rewrite Henv, bind_Return, Hhttp, bind_Return. cbn [getitem]. rewrite Hres, bind_Return.
      cbn [truthy]. now rewrite getitem_head, bind_Return. }
    rewrite Hfirst. cbn [getitem]. split.
    + now intros ->.
    + intros geometry ->. rewrite bind_Return. cbn [getitem]. split.
      * now intros ->.
      * intros lat -> Hlng. rewrite bind_Return. now rewrite Hlng.
Qed.

Lemma geocoder_missing_key_witness :
  geocode_location sample_env no_geometry_world (JStr "Munich")
    = Raise (KeyError (JStr "geometry")).
Proof.
  destruct (geocoder_missing_key sample_env no_geometry_world (JStr "Munich") "o"
              [("results", JArr [JObj [("formatted", JStr "Munich, Germany")]])]
              eq_refl eq_refl) as [_ Hfirst].
  destruct (Hfirst [("formatted", JStr "Munich, Germany")] [] eq_refl) as [Hgeo _].
  exact (Hgeo eq_refl).
Defined.

(** ** Forecast documents of another shape *)

Lemma assoc_app k (l1 l2 : list (string * json)) :
  assoc k (l1 ++ l2) = match assoc k l1 with Some v => Some v | None => assoc k l2 end.
Proof.
  induction l1 as [|[k' v'] l1 IH]; [reflexivity|].
  cbn [app assoc]. now destruct (String.eqb k k').
Qed.

Lemma assoc_None k fs : assoc k fs = None <-> k ∉ fs.*1.
Proof.
  split.
  - intros Hn Hin. apply assoc_is_Some in Hin. rewrite Hn in Hin. now destruct Hin.
  - intros Hn. destruct (assoc k fs) as [v|] eqn:E; [|reflexivity].
    destruct Hn. apply assoc_key_elem. now exists v.
Qed.

Lemma for_each_stops {A B : Type} (f : A -> result B) l1 x l2 r e :
  for_each f l1 = Return r -> f x = Raise e -> for_each f (l1 ++ x :: l2) = Raise e.
Proof.
  revert r. induction l1 as [|a l1 IH]; intros r.
  - intros _ Hx. cbn [app]. now rewrite for_each_cons, Hx.
  - cbn [app]. rewrite !for_each_cons.
    destruct (f a) as [b|e']; [|discriminate]. rewrite !bind_Return.
    destruct (for_each f l1) as [r1|e1] eqn:E1; [|discriminate].
    intros _ Hx. now rewrite (IH r1 eq_refl Hx).
Qed.

(** The comprehension succeeds on keys whose columns are day arrays. *)
Lemma slice_columns_ok fs i ks :
  0 <= i < 7 ->
  (forall k, k ∈ ks -> exists v, assoc k fs = Some v /\ column_ok v = true) ->
  exists r,
    for_each (fun key =>
                col ← getitem (JObj fs) key;
                v ← getitem col (JInt i);
                Return (key, v)) (JStr <$> ks) = Return r.
Proof.
  intros Hi. induction ks as [|k ks IH]; intros Hks; [now exists []|].
  destruct (Hks k) as (v & Hv & Hok); [apply list_elem_of_here|].
  destruct (column_ok_index v i Hok Hi) as (l & x & -> & _ & Hg).
  destruct IH as [r Hr]; [intros k' Hk'; apply Hks; now apply list_elem_of_further|].
  exists ((JStr k, x) :: r).
  rewrite fmap_cons, for_each_cons, Hr.
  cbn [getitem]. rewrite Hv, bind_Return, Hg. reflexivity.
Qed.

(** X7: the comprehension of lines 74-76 indexes every field of [data_day],
    not only the thirteen it keeps: a field that cannot be indexed at the
    offset of the day (a number, or an array that is too short), coming after
    fields that are day arrays, makes the forecast adapter raise the error of
    that subscript, whether the field is one the record uses or not. *)
Theorem unindexable_field_raises (env : environ) (w : World) (lat lon date : json)
    (key : string) (top pre post : list (string * json)) (k : string) (v : json)
    (target : Date) (e : exn) :
  env !! "METEOBLUE_API_KEY" = Some key ->
  requests_get_json w (weather_url w lat lon key) = Return (JObj top) ->
  strptime date = Return target ->
  0 <= days_between target (now_forecast w) < 7 ->
  assoc "data_day" top = Some (JObj (pre ++ (k, v) :: post)) ->
  (forall kv, kv ∈ pre -> column_ok kv.2 = true) ->
  k ∉ pre.*1 ->
  getitem v (JInt (days_between target (now_forecast w))) = Raise e ->
  get_weather_data env w lat lon date = Raise e.
Proof.
  intros Henv Hhttp Hdate Hin Htop Hpre Hk Hv.
  set (i := days_between target (now_forecast w)) in *.
  set (fs := (pre ++ (k, v) :: post)%list) in *.
  assert (Hget : getitem (JObj top) (JStr "data_day") = Return (JObj fs))
    by (cbn [getitem]; now rewrite Htop).
  assert (Hslice : day_slice (JObj top) i = Raise e).
  { unfold day_slice. rewrite Hget. cbn [mbind result_bind iter].
    assert (Hkeys : fs.*1 = (pre.*1 ++ k :: post.*1)%list)
      by (unfold fs; now rewrite fmap_app, fmap_cons).
    rewrite Hkeys, fmap_app, fmap_cons.
    destruct (slice_columns_ok fs i pre.*1 Hin) as [r Hr].
    { intros k' Hk'. apply assoc_is_Some in Hk' as [v' Hv'].
      exists v'. split.
      - unfold fs. now rewrite assoc_app, Hv'.
      - apply (Hpre (k', v')). now apply assoc_Some_elem. }
    apply (for_each_stops _ _ _ _ r e Hr).
    cbn [getitem]. unfold fs. rewrite assoc_app, (proj2 (assoc_None k pre) Hk).
    cbn [assoc]. rewrite String.eqb_refl, bind_Return.
    fold i in Hv. now rewrite Hv. }
  unfold get_weather_data, getenv.
  rewrite Henv, bind_Return, Hhttp, bind_Return, Hdate, bind_Return.
  fold i. rewrite (proj2 (in_window_dec i) Hin). now rewrite Hslice.
Qed.

Lemma unindexable_field_raises_witness :
  get_weather_data sample_env extra_field_world (JInt 48) (JInt 11) (JStr "2024-09-30")
    = Raise (TypeError "'int' object is not subscriptable").
Proof.
  apply (unindexable_field_raises sample_env extra_field_world (JInt 48) (JInt 11)
           (JStr "2024-09-30") "m"
           [("data_day",
             JObj (("time", JArr sample_days) :: ("version", JInt 2)
                   :: ((fun k => (k, sample_numbers)) <$> tail field_names)))]
           [("time", JArr sample_days)]
           ((fun k => (k, sample_numbers)) <$> tail field_names)
           "version" (JInt 2) (mkdate 2024 9 30)).
  - reflexivity.
  - reflexivity.
  - reflexivity.
  - vm_compute. split; [discriminate | reflexivity].
  - reflexivity.
  - intros kv Hkv. apply list_elem_of_singleton in Hkv as ->. reflexivity.
  - intros Hkv. apply list_elem_of_singleton in Hkv. discriminate Hkv.
  - reflexivity.
Defined.

Lemma day_get_absent (g : string -> json) k ks :
  k ∉ ks -> day_get k ((fun k => (JStr k, g k)) <$> ks) = Raise (KeyError (JStr k)).
Proof.
  induction ks as [|k' ks IH]; intros Hk; [reflexivity|].
  apply not_elem_of_cons in Hk as [Hne Hk].
  rewrite fmap_cons. cbn [day_get].
  rewrite (proj2 (String.eqb_neq k k') Hne). now apply IH.
Qed.

(** One of the thirteen subscripts of lines 78-90, on the dictionary of the
    comprehension: the value when the field is there, and the end of the
    search for the first missing field when it is not. *)
Ltac read_field fs i Hcols Hin Hfm name :=
  let v := fresh "v" in
  let Hf := fresh "Hf" in
  destruct (assoc name fs) as [v|] eqn:Hf;
  [ rewrite (day_get_slice fs i name fs.*1
               (assoc_key_elem name fs (ex_intro _ v Hf))), bind_Return
  | injection Hfm as <-;
    rewrite (day_get_absent (cell fs i) name fs.*1 (proj1 (assoc_None name fs) Hf));
    reflexivity ].

(** X8: a forecast document without ["data_day"], asked for a day of the
    window, makes the forecast adapter raise [KeyError] with that key; and a
    document whose fields are all day arrays but which lacks one of the
    thirteen fields of the record makes it raise [KeyError] with the first
    field, in the order of lines 78-90, that is missing. *)
Theorem missing_field_raises (env : environ) (w : World) (lat lon date : json)
    (key : string) (top : list (string * json)) (target : Date) :
  env !! "METEOBLUE_API_KEY" = Some key ->
  requests_get_json w (weather_url w lat lon key) = Return (JObj top) ->
  strptime date = Return target ->
  0 <= days_between target (now_forecast w) < 7 ->
  (assoc "data_day" top = None ->
     get_weather_data env w lat lon date = Raise (KeyError (JStr "data_day"))) /\
  (forall fs k,
     assoc "data_day" top = Some (JObj fs) ->
     (forall kv, kv ∈ fs -> column_ok kv.2 = true) ->
     first_missing fs = Some k ->
     get_weather_data env w lat lon date = Raise (KeyError (JStr k))).
Proof.
  intros Henv Hhttp Hdate Hin.
  set (i := days_between target (now_forecast w)) in *.
  assert (Hstart : get_weather_data env w lat lon date =
            (day_data ← day_slice (JObj top) i;
             f1 ← day_get "time" day_data;
             f2 ← day_get "temperature_max" day_data;
             f3 ← day_get "temperature_min" day_data;
             f4 ← day_get "temperature_mean" day_data;
             f5 ← day_get "felttemperature_max" day_data;
             f6 ← day_get "felttemperature_min" day_data;
             f7 ← day_get "precipitation" day_data;
             f8 ← day_get "precipitation_probability" day_data;
             f9 ← day_get "windspeed_mean" day_data;
             f10 ← day_get "winddirection" day_data;
             f11 ← day_get "pictocode" day_data;
             f12 ← day_get "uvindex" day_data;
             f13 ← day_get "relativehumidity_mean" day_data;
             Return (Some (mkDayForecast f1 f2 f3 f4 f5 f6 f7 f8 f9 f10 f11 f12 f13)))).
  { unfold get_weather_data, getenv.
    rewrite Henv, bind_Return, Hhttp, bind_Return, Hdate, bind_Return.
    fold i. now rewrite (proj2 (in_window_dec i) Hin). }
  rewrite Hstart. split.
  - intros Htop. unfold day_slice. cbn [getitem]. now rewrite Htop.
  - intros fs k Htop Hcols Hfm.
    rewrite (day_slice_eq top fs i Htop Hcols Hin), bind_Return.
    unfold first_missing, field_names in Hfm. cbn [find] in Hfm.
    read_field fs i Hcols Hin Hfm "time".
    read_field fs i Hcols Hin Hfm "temperature_max".
    read_field fs i Hcols Hin Hfm "temperature_min".
    read_field fs i Hcols Hin Hfm "temperature_mean".
    read_field fs i Hcols Hin Hfm "felttemperature_max".
    read_field fs i Hcols Hin Hfm "felttemperature_min".
    read_field fs i Hcols Hin Hfm "precipitation".
    read_field fs i Hcols Hin Hfm "precipitation_probability".
    read_field fs i Hcols Hin Hfm "windspeed_mean".
    read_field fs i Hcols Hin Hfm "winddirection".
    read_field fs i Hcols Hin Hfm "pictocode".
    read_field fs i Hcols Hin Hfm "uvindex".
    read_field fs i Hcols Hin Hfm "relativehumidity_mean".
    discriminate Hfm.
Qed.

Lemma missing_field_raises_witness :
  get_weather_data sample_env no_uvindex_world (JInt 48) (JInt 11) (JStr "2024-09-30")
    = Raise (KeyError (JStr "uvindex")).
Proof.
  destruct (missing_field_raises sample_env no_uvindex_world (JInt 48) (JInt 11)
              (JStr "2024-09-30") "m"
              [("data_day",
                JObj (("time", JArr sample_days)
                      :: ((fun k => (k, sample_numbers))
                            <$> filter (fun k => k <> "uvindex") (tail field_names))))]
              (mkdate 2024 9 30) eq_refl eq_refl eq_refl
              ltac:(vm_compute; split; [discriminate | reflexivity])) as [_ Hfield].
  apply (Hfield (("time", JArr sample_days)
                 :: ((fun k => (k, sample_numbers))
                       <$> filter (fun k => k <> "uvindex") (tail field_names)))).
  - reflexivity.
  - intros kv Hkv. apply list_elem_of_In in Hkv. revert kv Hkv.
    apply (proj1 (forallb_forall (fun kv : string * json => column_ok kv.2) _)).
    vm_compute. reflexivity.
  - vm_compute. reflexivity.
Defined.

(** ** The calendar behind the offset *)

Lemma div_step (k y : Z) :
  0 < k -> y / k = (y - 1) / k + (if y mod k =? 0 then 1 else 0).
Proof.
  intros Hk. pose proof (Z.div_mod y k ltac:(lia)) as Hy.
  pose proof (Z.mod_pos_bound y k Hk) as Hb.
  destruct (Z.eqb_spec (y mod k) 0) as [H0|H0].
  - rewrite <- (Z.div_unique (y - 1) k (y / k - 1) (k - 1)); lia.
  - rewrite <- (Z.div_unique (y - 1) k (y / k) (y mod k - 1)); lia.
Qed.

Lemma days_before_year_succ (y : Z) :
  days_before_year (y + 1) = days_before_year y + (if is_leap y then 366 else 365).
Proof.
  unfold days_before_year, is_leap.
  replace (y + 1 - 1) with y by lia.
  rewrite (div_step 4 y), (div_step 100 y), (div_step 400 y) by lia.
  pose proof (Z.mod_mod_divide y 100 4 ltac:(now exists 25)) as H4.
  pose proof (Z.mod_mod_divide y 400 100 ltac:(now exists 4)) as H100.
  destruct (Z.eqb_spec (y mod 4) 0) as [E4|E4];
    destruct (Z.eqb_spec (y mod 100) 0) as [E100|E100];
    destruct (Z.eqb_spec (y mod 400) 0) as [E400|E400]; cbn [negb andb orb];
    try lia;
    try (rewrite E400 in H100; change (0 mod 100) with 0 in H100; congruence);
    try (rewrite E100 in H4; change (0 mod 4) with 0 in H4; congruence).
Qed.

Lemma days_before_year_mono (a b : Z) : a <= b -> days_before_year a <= days_before_year b.
Proof. unfold days_before_year. intros H. Z.div_mod_to_equations. lia. Qed.

Lemma month_cases (m : Z) :
  1 <= m <= 12 ->
  m = 1 \/ m = 2 \/ m = 3 \/ m = 4 \/ m = 5 \/ m = 6 \/
  m = 7 \/ m = 8 \/ m = 9 \/ m = 10 \/ m = 11 \/ m = 12.
Proof. lia. Qed.

Lemma days_before_month_succ (y m : Z) :
  1 <= m <= 12 ->
  days_before_month y (m + 1) = days_before_month y m + days_in_month y m.
Proof.
  intros Hm. unfold days_before_month, days_in_month.
  destruct (month_cases m Hm) as [->|[->|[->|[->|[->|[->|[->|[->|[->|[->|[->| ->]]]]]]]]]]];
    destruct (is_leap y); vm_compute; reflexivity.
Qed.

Lemma days_in_month_pos (y m : Z) : 28 <= days_in_month y m.
Proof.
  unfold days_in_month.
  repeat match goal with |- context [if ?b then _ else _] => destruct b end; lia.
Qed.

Lemma days_before_month_mono (y a b : Z) :
  1 <= a -> a <= b -> b <= 13 -> days_before_month y a <= days_before_month y b.
Proof.
  intros Ha Hab Hb.
  replace b with (a + Z.of_nat (Z.to_nat (b - a))) by lia.
  assert (Hn : Z.of_nat (Z.to_nat (b - a)) <= 13 - a) by lia.
  induction (Z.to_nat (b - a)) as [|n IH]; [rewrite Z.add_0_r; lia|].
  rewrite Nat2Z.inj_succ in *.
  replace (a + Z.succ (Z.of_nat n)) with (a + Z.of_nat n + 1) by lia.
  rewrite days_before_month_succ by lia.
  pose proof (days_in_month_pos y (a + Z.of_nat n)). lia.
Qed.

Lemma days_before_month_first (y : Z) : days_before_month y 1 = 0.
Proof. reflexivity. Qed.

Lemma days_before_month_year (y : Z) :
  days_before_month y 13 = if is_leap y then 366 else 365.
Proof.
  unfold days_before_month, days_in_month. destruct (is_leap y); vm_compute; reflexivity.
Qed.

Lemma valid_date_bounds (d : Date) :
  valid_date d = true ->
  1 <= year d <= 9999 /\ 1 <= month d <= 12 /\
  1 <= day d <= days_in_month (year d) (month d).
Proof.
  unfold valid_date. rewrite !andb_true_iff, !Z.leb_le. tauto.
Qed.

(** The number of a day grows with the calendar. *)
Lemma toordinal_lt (a b : Date) :
  valid_date a = true -> valid_date b = true ->
  date_ltb a b = true -> toordinal a < toordinal b.
Proof.
  intros Ha%valid_date_bounds Hb%valid_date_bounds.
  destruct a as [ya ma da], b as [yb mb db]. unfold date_ltb, toordinal.
  cbn [year month day] in *.
  pose proof (days_before_month_mono yb 1 mb ltac:(lia) ltac:(lia) ltac:(lia)) as Hb0.
  rewrite days_before_month_first in Hb0.
  intros H.
  apply orb_true_iff in H as [Hy%Z.ltb_lt | [Hy%Z.eqb_eq H]%andb_true_iff];
    [| subst ya;
       apply orb_true_iff in H as [Hm%Z.ltb_lt | [Hm%Z.eqb_eq Hd%Z.ltb_lt]%andb_true_iff];
       [| subst ma]].
  - pose proof (days_before_month_succ ya ma ltac:(lia)) as Hs.
    pose proof (days_before_month_mono ya (ma + 1) 13 ltac:(lia) ltac:(lia) ltac:(lia)) as Hm.
    rewrite days_before_month_year in Hm.
    pose proof (days_before_year_succ ya) as Hy1.
    pose proof (days_before_year_mono (ya + 1) yb ltac:(lia)) as Hy2.
    lia.
  - pose proof (days_before_month_succ yb ma ltac:(lia)) as Hs.
    pose proof (days_before_month_mono yb (ma + 1) mb ltac:(lia) ltac:(lia) ltac:(lia)).
    lia.
  - lia.
Qed.

Lemma date_trichotomy (a b : Date) : date_ltb a b = true \/ a = b \/ date_ltb b a = true.
Proof.
  destruct a as [ya ma da], b as [yb mb db]. unfold date_ltb. cbn [year month day].
  repeat match goal with
         | |- context [?x <? ?y] => destruct (Z.ltb_spec x y)
         | |- context [?x =? ?y] => destruct (Z.eqb_spec x y)
         end; cbn [orb andb];
    try (exfalso; lia);
    first [left; reflexivity | right; right; reflexivity | right; left; f_equal; lia].
Qed.

(** X14: the offset of line 71 follows the calendar: between two dates of
    the calendar it is negative exactly when the requested date is before
    today, and 0 exactly when it is today.  So for a date before today the
    forecast adapter returns the absent result, whatever the forecast
    document holds. *)
Theorem past_date_is_absent (env : environ) (w : World) (lat lon date : json)
    (key : string) (data : json) (target : Date) :
  env !! "METEOBLUE_API_KEY" = Some key ->
  requests_get_json w (weather_url w lat lon key) = Return data ->
  strptime date = Return target ->
  valid_date target = true ->
  valid_date (now_forecast w) = true ->
  (days_between target (now_forecast w) < 0 <-> date_ltb target (now_forecast w) = true) /\
  (days_between target (now_forecast w) = 0 <-> target = now_forecast w) /\
  (date_ltb target (now_forecast w) = true ->
     get_weather_data env w lat lon date = Return None).
Proof.
  intros Henv Hhttp Hdate Hvt Hvn.
  set (today := now_forecast w) in *.
  assert (Hlt : date_ltb target today = true -> days_between target today < 0).
  { intros H. pose proof (toordinal_lt target today Hvt Hvn H). unfold days_between. lia. }
  assert (Hgt : date_ltb today target = true -> 0 < days_between target today).
  { intros H. pose proof (toordinal_lt today target Hvn Hvt H). unfold days_between. lia. }
  assert (Heq : target = today -> days_between target today = 0).
  { intros ->. unfold days_between. lia. }
  split; [|split].
  - split; [|exact Hlt]. intros H.
    destruct (date_trichotomy target today) as [Hc|[Hc|Hc]]; [exact Hc | |].
    + apply Heq in Hc. lia.
    + apply Hgt in Hc. lia.
  - split; [|exact Heq]. intros H.
    destruct (date_trichotomy target today) as [Hc|[Hc|Hc]]; [| exact Hc |].
    + apply Hlt in Hc. lia.
    + apply Hgt in Hc. lia.
  - intros H. apply (forecast_out_of_window env w lat lon date key data target Henv Hhttp Hdate).
    apply Hlt in H. fold today. lia.
Qed.

Lemma past_date_is_absent_witness :
  get_weather_data sample_env past_date_world (JInt 48) (JInt 11) (JStr "2024-09-20")
    = Return None.
Proof.
  destruct (past_date_is_absent sample_env past_date_world (JInt 48) (JInt 11)
              (JStr "2024-09-20") "m" sample_forecast (mkdate 2024 9 20)
              eq_refl eq_refl eq_refl eq_refl eq_refl) as (_ & _ & Hpast).
  exact (Hpast eq_refl).
Defined.

(** ** What the date format accepts *)

Lemma is_digit_bounds (c : ascii) : is_digit c = true -> 0 <= digit c <= 9.
Proof.
  unfold is_digit, digit. rewrite andb_true_iff, !Nat.leb_le. lia.
Qed.

Lemma in_range_bounds (c : ascii) (lo hi : Z) :
  in_range c lo hi = true -> lo <= digit c <= hi.
Proof.
  unfold in_range. rewrite !andb_true_iff, !Z.leb_le. tauto.
Qed.

Lemma match_year_sound s y r :
  match_year s = Some (y, r) ->
  0 <= y <= 9999 /\ String.length s = (5 + String.length r)%nat.
Proof.
  unfold match_year. destruct s as [|a [|b [|c [|d [|e r']]]]]; try discriminate.
  destruct (is_digit a && is_digit b && is_digit c && is_digit d && Ascii.eqb e "-")
    eqn:E; [|discriminate].
  intros [= <- <-]. apply andb_prop in E as [E _].
  apply andb_prop in E as [E Hd]. apply andb_prop in E as [E Hc].
  apply andb_prop in E as [Ha Hb].
  apply is_digit_bounds in Ha, Hb, Hc, Hd. split; [lia | reflexivity].
Qed.

Lemma match_month_sound s m r :
  match_month s = Some (m, r) ->
  1 <= m <= 12 /\ (String.length r + 2 <= String.length s <= String.length r + 3)%nat.
Proof.
  unfold match_month. destruct s as [|a [|b [|c r']]]; try discriminate.
  - destruct (in_range a 1 9 && Ascii.eqb b "-") eqn:E; [|discriminate].
    intros [= <- <-]. apply andb_prop in E as [E _]. apply in_range_bounds in E.
    split; [lia | cbn; lia].
  - destruct (Ascii.eqb a "1" && in_range b 0 2 && Ascii.eqb c "-") eqn:E1.
    { intros [= <- <-]. apply andb_prop in E1 as [E1 _]. apply andb_prop in E1 as [_ E1].
      apply in_range_bounds in E1. split; [lia | cbn; lia]. }
    destruct (Ascii.eqb a "0" && in_range b 1 9 && Ascii.eqb c "-") eqn:E2.
    { intros [= <- <-]. apply andb_prop in E2 as [E2 _]. apply andb_prop in E2 as [_ E2].
      apply in_range_bounds in E2. split; [lia | cbn; lia]. }
    destruct (in_range a 1 9 && Ascii.eqb b "-") eqn:E3; [|discriminate].
    intros [= <- <-]. apply andb_prop in E3 as [E3 _]. apply in_range_bounds in E3.
    split; [lia | cbn; lia].
Qed.

Lemma match_day_sound s d r :
  match_day s = Some (d, r) ->
  1 <= d <= 31 /\ (String.length r + 1 <= String.length s <= String.length r + 2)%nat.
Proof.
  unfold match_day. destruct s as [|a [|b r']]; try discriminate.
  - destruct (in_range a 1 9) eqn:E; [|discriminate].
    intros [= <- <-]. apply in_range_bounds in E. split; [lia | cbn; lia].
  - destruct (Ascii.eqb a "3" && in_range b 0 1) eqn:E1.
    { intros [= <- <-]. apply andb_prop in E1 as [_ E1]. apply in_range_bounds in E1.
      split; [lia | cbn; lia]. }
    destruct (in_range a 1 2 && is_digit b) eqn:E2.
    { intros [= <- <-]. apply andb_prop in E2 as [Ea Eb].
      apply in_range_bounds in Ea. apply is_digit_bounds in Eb. split; [lia | cbn; lia]. }
    destruct (Ascii.eqb a "0" && in_range b 1 9) eqn:E3.
    { intros [= <- <-]. apply andb_prop in E3 as [_ E3]. apply in_range_bounds in E3.
      split; [lia | cbn; lia]. }
    destruct (in_range a 1 9) eqn:E4.
    { intros [= <- <-]. apply in_range_bounds in E4. split; [lia | cbn; lia]. }
    destruct (Ascii.eqb a " " && in_range b 1 9) eqn:E5; [|discriminate].
    intros [= <- <-]. apply andb_prop in E5 as [_ E5]. apply in_range_bounds in E5.
    split; [lia | cbn; lia].
Qed.

(** X12: the dates the forecast adapter gets from line 69 are dates of the
    calendar: whenever [strptime] returns, its argument is a string of 8 to
    10 characters and the date has a year from 1 to 9999, a month from 1 to
    12 and a day that exists in that month of that year.  Anything else
    raises. *)
Theorem strptime_returns_calendar_dates (v : json) (d : Date) :
  strptime v = Return d ->
  valid_date d = true /\
  exists s, v = JStr s /\ (8 <= String.length s <= 10)%nat.
Proof.
  destruct v as [| | | |s| |]; try discriminate. cbn [strptime]. unfold strptime_str.
  destruct (match_year s) as [[y s1]|] eqn:Hy; [|discriminate].
  destruct (match_month s1) as [[m s2]|] eqn:Hm; [|discriminate].
  destruct (match_day s2) as [[dd rest]|] eqn:Hd; [|discriminate].
  destruct (String.eqb_spec rest "") as [->|Hr]; [|discriminate]. cbn [negb].
  destruct (Z.eqb_spec y 0) as [|Hy0]; [discriminate|].
  destruct (Z.ltb_spec (days_in_month y m) dd) as [|Hdim]; [discriminate|].
  intros [= <-].
  apply match_year_sound in Hy as [Hyb Hyl].
  apply match_month_sound in Hm as [Hmb Hml].
  apply match_day_sound in Hd as [Hdb Hdl]. cbn [String.length] in Hdl.
  split.
  - unfold valid_date. cbn [year month day].
    rewrite !andb_true_iff, !Z.leb_le. lia.
  - exists s. split; [reflexivity | lia].
Qed.

Lemma strptime_returns_calendar_dates_witness :
  valid_date (mkdate 2024 9 30) = true /\
  exists s, JStr "2024-09-30" = JStr s /\ (8 <= String.length s <= 10)%nat.
Proof.
  apply (strptime_returns_calendar_dates (JStr "2024-09-30") (mkdate 2024 9 30)).
  reflexivity.
Defined.

Lemma unpadded_digits (m d : Z) :
  1 <= m <= 12 -> 1 <= d <= 31 ->
  match_month (str_of_Z m +:+ "-" +:+ str_of_Z d) = Some (m, str_of_Z d) /\
  match_day (str_of_Z d) = Some (d, "").
Proof.
  intros Hm Hd.
  assert (Hall : forallb (fun i => forallb (fun j =>
            let m := Z.of_nat i in let d := Z.of_nat j in
            bool_decide (match_month (str_of_Z m +:+ "-" +:+ str_of_Z d)
                           = Some (m, str_of_Z d)) &&
            bool_decide (match_day (str_of_Z d) = Some (d, "")))
            (seq 1 31)) (seq 1 12) = true) by (vm_compute; reflexivity).
  rewrite forallb_forall in Hall.
  specialize (Hall (Z.to_nat m) ltac:(apply in_seq; lia)).
  rewrite forallb_forall in Hall.
  specialize (Hall (Z.to_nat d) ltac:(apply in_seq; lia)).
  cbv zeta in Hall. rewrite !Z2Nat.id in Hall by lia.
  apply andb_prop in Hall as [H1%bool_decide_eq_true H2%bool_decide_eq_true].
  now split.
Qed.

(** X13: the format of line 69 is not strict about padding: a date of the
    calendar (of a year from 1000 on) written without leading zeros, as in
    2024-9-5, is read as the same date as its padded writing. *)
Theorem strptime_reads_unpadded (d : Date) :
  valid_date d = true -> 1000 <= year d ->
  strptime (JStr (write_unpadded d)) = Return d /\
  strptime (JStr (strftime d)) = Return d.
Proof.
  intros Hv Hy. split; [|now apply strptime_strftime].
  destruct d as [y m dd]. apply valid_date_bounds in Hv. cbn [year month day] in *.
  pose proof (days_in_month_le y m) as Hle.
  destruct (year_digits y) as (a & b & c & e & Hpad & Hdig & Hval); [lia|].
  destruct (unpadded_digits m dd) as [Hmm Hmd]; [lia | lia |].
  cbn [strptime]. unfold strptime_str, write_unpadded. cbn [year month day].
  rewrite Hpad, (match_year_digits a b c e _ Hdig), Hmm, Hmd, Hval.
  cbn [String.eqb negb].
  destruct (Z.eqb_spec y 0); [lia|].
  destruct (Z.ltb_spec (days_in_month y m) dd); [lia|].
  reflexivity.
Qed.

Lemma strptime_reads_unpadded_witness :
  strptime (JStr "2024-9-5") = Return (mkdate 2024 9 5) /\
  strptime (JStr "2024-09-05") = Return (mkdate 2024 9 5).
Proof.
  apply (strptime_reads_unpadded (mkdate 2024 9 5));
    [reflexivity | vm_compute; discriminate].
Defined.
